(** * SEC 8-K product-release pipeline: a shallow embedding

    The Python script [ashley_llm_assignment.py] fetches the index of 8-K
    filings of a company, fetches each filing's text, asks a local language
    model about new products and parses the model's free-text reply.

    The embedding follows the script function by function.  Python [str]
    values are sequences of Unicode code points; the calls to third-party
    services (HTTP, the model, the HTML parser) are answered by a [World]
    and recorded in a trace of events. *)

From Stdlib Require Import String Ascii.
From Stdlib Require Import List ZArith NArith Bool Lia.
Import ListNotations.

Set Implicit Arguments.
Set Warnings "-register-all".

(** ** Python strings *)

Module PyStr.

(** A character is a Unicode code point; a [str] is a sequence of them. *)
Definition char := N.
Definition str := list char.

Definition of_string (s : string) : str :=
  List.map N_of_ascii (list_ascii_of_string s).

Definition char_eqb (a b : char) : bool := N.eqb a b.

Fixpoint str_eqb (a b : str) : bool :=
  match a, b with
  | [], [] => true
  | x :: a', y :: b' => char_eqb x y && str_eqb a' b'
  | _, _ => false
  end.

(** [len(s)] *)
Definition len (s : str) : Z := Z.of_nat (length s).

(** [s.startswith(sub)] *)
Fixpoint starts_with (sub s : str) : bool :=
  match sub, s with
  | [], _ => true
  | _ :: _, [] => false
  | x :: sub', y :: s' => char_eqb x y && starts_with sub' s'
  end.

(** Offset of the first occurrence of [sub] in [s]. *)
Fixpoint index_of (sub s : str) : option nat :=
  if starts_with sub s then Some O
  else match s with
       | [] => None
       | _ :: s' => option_map S (index_of sub s')
       end.

(** [sub in s] *)
Definition contains (sub s : str) : bool :=
  match index_of sub s with Some _ => true | None => false end.

(** How a slice bound is read: a negative bound counts from the end, and
    every bound is clipped to [0 .. len]. *)
Definition clip (n : Z) (i : Z) : nat :=
  Z.to_nat (if (i <? 0)%Z then Z.max 0 (i + n) else Z.min i n).

(** [s[a:b]] *)
Definition slice (s : str) (a b : Z) : str :=
  let a' := clip (len s) a in
  let b' := clip (len s) b in
  firstn (b' - a') (skipn a' s).

(** [s[:b]] *)
Definition slice_to (s : str) (b : Z) : str := slice s 0 b.

(** [s.find(sub, start)]: the lowest index at or after [start] where [sub]
    occurs, or [-1]. *)
Definition find (sub s : str) (start : Z) : Z :=
  let st := clip (len s) start in
  if (len s <? start)%Z then (-1)%Z
  else match index_of sub (skipn st s) with
       | Some k => Z.of_nat (st + k)
       | None => (-1)%Z
       end.

(** [c.isspace()] for a one-character string: the code points Python
    treats as whitespace. *)
Definition isspace (c : char) : bool :=
  ((9 <=? c) && (c <=? 13) || (28 <=? c) && (c <=? 32) ||
   (c =? 133) || (c =? 160) || (c =? 5760) ||
   (8192 <=? c) && (c <=? 8202) || (c =? 8232) || (c =? 8233) ||
   (c =? 8239) || (c =? 8287) || (c =? 12288))%N.

(** [s.lstrip()], [s.rstrip()], [s.strip()] *)
Fixpoint lstrip (s : str) : str :=
  match s with
  | c :: s' => if isspace c then lstrip s' else s
  | [] => []
  end.

Definition rstrip (s : str) : str := rev (lstrip (rev s)).

Definition strip (s : str) : str := rstrip (lstrip s).

(** [s.replace(old, new)]: every occurrence of [old], found left to right
    without overlap, is replaced by [new].  [skip] counts the characters of
    a matched occurrence that are still to be dropped. *)
Fixpoint replace_go (old new : str) (skip : nat) (s : str) : str :=
  match s with
  | [] => []
  | c :: s' =>
      match skip with
      | S k => replace_go old new k s'
      | O => if starts_with old s
             then new ++ replace_go old new (length old - 1) s'
             else c :: replace_go old new O s'
      end
  end.

Definition replace (old new s : str) : str :=
  match old with
  | [] => new ++ flat_map (fun c => c :: new) s
  | _ :: _ => replace_go old new O s
  end.

(** Truthiness of a string: [bool(s)]. *)
Definition truthy (s : str) : bool :=
  match s with [] => false | _ :: _ => true end.

End PyStr.
Import PyStr.

Definition NL : char := 10%N.
Definition QUOTE : char := 34%N.

(** ** Python values, as [response.json()] delivers them *)

Inductive value : Type :=
| VNone
| VBool (b : bool)
| VInt (n : Z)
| VFloat (mantissa exponent : Z)
| VStr (s : str)
| VList (items : list value)
| VDict (entries : list (str * value)).

(** The exceptions the script can meet.  All are subclasses of
    [Exception]; [RequestException] stands for the transport errors of the
    HTTP library, [ModelError] for a failure of the model call. *)
Inductive exn : Type :=
| RequestException
| HTTPError (status : Z)
| JSONDecodeError
| TypeError
| AttributeError
| IndexError
| KeyError
| ModelError.

Inductive result (A : Type) : Type :=
| Ok (a : A)
| Raise (e : exn).
Arguments Ok {A} a.
Arguments Raise {A} e.

Module PyObj.

(** [v == s] for a string literal [s] *)
Definition eq_str (v : value) (s : str) : bool :=
  match v with
  | VStr x => str_eqb x s
  | _ => false
  end.

Fixpoint lookup (key : str) (entries : list (str * value)) : option value :=
  match entries with
  | [] => None
  | (k, v) :: rest => if str_eqb k key then Some v else lookup key rest
  end.

(** [key in v] for a string literal [key] *)
Definition py_in (key : str) (v : value) : result bool :=
  match v with
  | VDict d => Ok (match lookup key d with Some _ => true | None => false end)
  | VList l => Ok (existsb (fun x => eq_str x key) l)
  | VStr s => Ok (contains key s)
  | _ => Raise TypeError
  end.

(** [v[key]] for a string literal [key] *)
Definition getitem (v : value) (key : str) : result value :=
  match v with
  | VDict d => match lookup key d with Some x => Ok x | None => Raise KeyError end
  | _ => Raise TypeError
  end.

(** [v.get(key, default)] *)
Definition get (v : value) (key : str) (default : value) : result value :=
  match v with
  | VDict d => Ok (match lookup key d with Some x => x | None => default end)
  | _ => Raise AttributeError
  end.

(** The items [enumerate(v)] runs through. *)
Definition iterate (v : value) : result (list value) :=
  match v with
  | VList l => Ok l
  | VStr s => Ok (List.map (fun c => VStr [c]) s)
  | VDict d => Ok (List.map (fun kv => VStr (fst kv)) d)
  | _ => Raise TypeError
  end.

(** [v[i]] for an index [i] produced by [enumerate], hence not negative. *)
Definition getindex (v : value) (i : nat) : result value :=
  match v with
  | VList l => match nth_error l i with Some x => Ok x | None => Raise IndexError end
  | VStr s => match nth_error s i with Some c => Ok (VStr [c]) | None => Raise IndexError end
  | VDict _ => Raise KeyError
  | _ => Raise TypeError
  end.

End PyObj.

(** ** The outside world and the effects of the script *)

Record response : Type := {
  status_code : Z;
  text : str;
  json : option value   (* [None]: the body is not JSON, [.json()] raises *)
}.

(** The messages the script prints.  The last four belong to the
    statements that follow the loop over the companies and to the handlers
    of the outermost [try]. *)
Inductive message : Type :=
| MsgError8K (cik : str) (e : exn)
| MsgErrorContent (accession_number : str) (e : exn)
| MsgErrorLLM (e : exn)
| MsgProcessing (company_name cik ticker : str)
| MsgAnalyzing (filing_date : value)
| MsgFound (new_product : str)
| MsgComplete (found : nat)
| MsgRequestError (e : exn)
| MsgJSONError (e : exn)
| MsgUnexpected (e : exn).

Record ProductRecord : Type := {
  new_product : str;
  product_description : str
}.

Record ResultRow : Type := {
  row_company_name : str;
  row_stock_name : str;
  row_filing_time : value;
  row_new_product : str;
  row_product_description : str
}.

Inductive event : Type :=
| EvGet (url user_agent : str)
| EvGenerate (model prompt : str)
| EvPrint (m : message)
| EvSleep (seconds : nat)
| EvToCsv (path : str) (rows : list ResultRow).

(** What the third parties answer.  An answer may depend on everything
    that happened before the call. *)
Record World : Type := {
  (* [requests.get(url, headers=...)] *)
  requests_get : list event -> str -> result response;
  (* [ollama.generate(model=..., prompt=...)['response']] *)
  ollama_generate : list event -> str -> str -> result str;
  (* [BeautifulSoup(html, 'html.parser').get_text(separator=' ', strip=True)] *)
  soup_get_text : str -> str
}.

(** The state of a run: what happened so far and the global [results_df]. *)
Record Store : Type := {
  trace : list event;
  results_df : list ResultRow
}.

(** The store after [events] happened. *)
Definition logged (s : Store) (events : list event) : Store :=
  {| trace := trace s ++ events; results_df := results_df s |}.

Definition M (A : Type) : Type := Store -> result A * Store.

Definition ret {A} (a : A) : M A := fun s => (Ok a, s).

Definition bind {A B} (c : M A) (k : A -> M B) : M B :=
  fun s => match c s with
           | (Ok a, s') => k a s'
           | (Raise e, s') => (Raise e, s')
           end.

Definition lift {A} (r : result A) : M A := fun s => (r, s).

(** [try: body  except Exception as e: handler e] *)
Definition try_except {A} (body : M A) (handler : exn -> M A) : M A :=
  fun s => match body s with
           | (Ok a, s') => (Ok a, s')
           | (Raise e, s') => handler e s'
           end.

Declare Scope py_scope.
Delimit Scope py_scope with py.
Notation "x <- c ;; k" := (bind c (fun x => k))
  (at level 61, c at next level, right associativity) : py_scope.
Notation "c ;;; k" := (bind c (fun _ => k))
  (at level 61, right associativity) : py_scope.
Open Scope py_scope.

Definition emit (e : event) : M unit :=
  fun s => (Ok tt, logged s [e]).

Definition print (m : message) : M unit := emit (EvPrint m).

Definition sleep (seconds : nat) : M unit := emit (EvSleep seconds).

Definition USER_AGENT : str := of_string "as872832@ucf.edu".

Definition http_get (w : World) (url : str) : M response :=
  fun s => (requests_get w (trace s) url, logged s [EvGet url USER_AGENT]).

(** [response.raise_for_status()]: the HTTP library raises on the client
    and server error codes. *)
Definition raise_for_status (r : response) : result unit :=
  if ((400 <=? status_code r) && (status_code r <? 600))%Z
  then Raise (HTTPError (status_code r))
  else Ok tt.

(** [response.json()] *)
Definition response_json (r : response) : result value :=
  match json r with
  | Some v => Ok v
  | None => Raise JSONDecodeError
  end.

Fixpoint map_result {A B} (f : A -> result B) (l : list A) : result (list B) :=
  match l with
  | [] => Ok []
  | x :: l' =>
      match f x with
      | Raise e => Raise e
      | Ok y => match map_result f l' with
                | Raise e => Raise e
                | Ok ys => Ok (y :: ys)
                end
      end
  end.

(** [for x in l: body x] *)
Fixpoint for_each {A} (body : A -> M unit) (l : list A) : M unit :=
  match l with
  | [] => ret tt
  | x :: l' => body x ;;; for_each body l'
  end.

(** ** The script *)

(** *** [extract_section] *)

Definition NBSP : char := 160%N.          (* U+00A0 *)
Definition THIN_SPACE : char := 8201%N.   (* U+2009 *)
Definition EN_SPACE : char := 8194%N.     (* U+2002 *)
Definition EM_SPACE : char := 8195%N.     (* U+2003 *)
Definition BALLOT_BOX : char := 9744%N.   (* U+2610 *)
Definition SPACE : char := 32%N.

(** The chain of [replace] calls of the [return] statement. *)
Definition replace_glyphs (html_text : str) : str :=
  replace [SPACE; BALLOT_BOX; SPACE] [SPACE]
    (replace [EM_SPACE] [SPACE]
      (replace [EN_SPACE] [SPACE]
        (replace [THIN_SPACE] [SPACE]
          (replace [NBSP] [SPACE] html_text)))).

Definition extract_section (w : World) (html_content : str) : str :=
  let html_text := soup_get_text w html_content in
  replace_glyphs html_text.

(** *** [get_8k_filings] *)

Definition FilingRef : Type := (value * value)%type.

Definition search_url (cik : str) : str :=
  of_string "https://data.sec.gov/submissions/CIK" ++ cik ++ of_string ".json".

(** [[i for i, form in enumerate(forms) if form == '8-K']] *)
Fixpoint indices_8k (i : nat) (forms : list value) : list nat :=
  match forms with
  | [] => []
  | form :: rest =>
      if PyObj.eq_str form (of_string "8-K")
      then i :: indices_8k (S i) rest
      else indices_8k (S i) rest
  end.

(** [[recent_filings.get(key, [])[i] for i in form_indices]] *)
Definition pick (recent_filings : value) (key : str) (form_indices : list nat)
  : result (list value) :=
  map_result
    (fun i => match PyObj.get recent_filings key (VList []) with
              | Raise e => Raise e
              | Ok column => PyObj.getindex column i
              end)
    form_indices.

(** The body of the [try] block, from the parsed response on. *)
Definition select_8k (filings_data : value) : M (list FilingRef) :=
  has_filings <- lift (PyObj.py_in (of_string "filings") filings_data) ;;
  has_recent <-
    (if has_filings : bool
     then filings <- lift (PyObj.getitem filings_data (of_string "filings")) ;;
          lift (PyObj.py_in (of_string "recent") filings)
     else ret false) ;;
  if has_recent : bool then
    filings <- lift (PyObj.getitem filings_data (of_string "filings")) ;;
    recent_filings <- lift (PyObj.getitem filings (of_string "recent")) ;;
    column <- lift (PyObj.get recent_filings (of_string "form") (VList [])) ;;
    forms <- lift (PyObj.iterate column) ;;
    let form_indices := indices_8k 0 forms in
    match form_indices with
    | _ :: _ =>
        filing_dates <- lift (pick recent_filings (of_string "filingDate") form_indices) ;;
        accession_numbers <- lift (pick recent_filings (of_string "accessionNumber") form_indices) ;;
        ret (combine filing_dates accession_numbers)
    | [] => ret []
    end
  else ret [].

Definition get_8k_filings (w : World) (cik : str) : M (list FilingRef) :=
  try_except
    (response <- http_get w (search_url cik) ;;
     lift (raise_for_status response) ;;;
     filings_data <- lift (response_json response) ;;
     select_8k filings_data)
    (fun e => print (MsgError8K cik e) ;;; ret []).

(** *** [get_filing_content] *)

Definition filing_url (cik accession_number_clean accession_number : str) : str :=
  of_string "https://www.sec.gov/Archives/edgar/data/" ++ cik ++ of_string "/"
    ++ accession_number_clean ++ of_string "/" ++ accession_number
    ++ of_string ".txt".

(** [re.search(r'<TEXT>(.*?)</TEXT>', content, re.DOTALL)], group 1: the
    text between the first opening tag and the first closing tag after it. *)
Definition search_text (content : str) : option str :=
  match index_of (of_string "<TEXT>") content with
  | None => None
  | Some i =>
      let rest := skipn (i + 6) content in
      match index_of (of_string "</TEXT>") rest with
      | None => None
      | Some j => Some (firstn j rest)
      end
  end.

Definition get_filing_content (w : World) (accession_number : value) (cik : str)
  : M (option str) :=
  match accession_number with
  | VStr accession =>
      let accession_number_clean := replace (of_string "-") [] accession in
      try_except
        (response <- http_get w (filing_url cik accession_number_clean accession) ;;
         lift (raise_for_status response) ;;;
         let content := text response in
         match search_text content with
         | Some group => ret (Some (extract_section w group))
         | None => ret (Some (extract_section w content))
         end)
        (fun e => print (MsgErrorContent accession e) ;;; ret None)
  | _ =>
      (* [accession_number.replace] stands before the [try]: a value that
         is not a [str] has no such method *)
      lift (Raise AttributeError)
  end.

(** *** [extract_product_info] *)

Definition MODEL : str := of_string "mistral".
Definition SENTINEL : str := of_string "No new product found".
Definition NAME_ANCHOR : str := of_string "New Product Name:".
Definition DESC_ANCHOR : str := of_string "Product Description:".
Definition ELLIPSIS : str := of_string "...".

Definition line (s : string) : str := of_string s ++ [NL].

Definition build_prompt (filing_content company_name ticker : str) : str :=
  line " "
  ++ line "    Analyze this SEC 8-K filing and extract information about any new product releases or announcements. "
  ++ [NL]
  ++ of_string "    Company: " ++ company_name ++ line " "
  ++ of_string "    Ticker: " ++ ticker ++ line " "
  ++ [NL]
  ++ line "    Task: Extract the following information in a structured format: "
  ++ line "    1. New Product Name: [Name of the new product] "
  ++ line "    2. Product Description: [Brief description of the product, less than 180 characters] "
  ++ [NL]
  ++ of_string "    If no new product is mentioned in the filing, respond with "
  ++ [QUOTE] ++ SENTINEL ++ [QUOTE] ++ line ". "
  ++ [NL]
  ++ line "    Filing content: "
  ++ of_string "    " ++ filing_content ++ line "  # Limit content length "
  ++ of_string "    ".

(** The text from just after the first [anchor] to the next line break (or
    to the end), stripped. *)
Definition field_after (anchor llm_response : str) : str :=
  let start := (find anchor llm_response 0 + len anchor)%Z in
  let stop := find [NL] llm_response start in
  let stop := if (stop =? -1)%Z then len llm_response else stop in
  strip (slice llm_response start stop).

(** The two statements under "Ensure description is under 180 characters". *)
Definition cap_description (product_description : str) : str :=
  if truthy product_description && (180 <? len product_description)%Z
  then slice_to product_description 177 ++ ELLIPSIS
  else product_description.

(** [x or ""] for an optional string *)
Definition or_empty (x : option str) : str :=
  match x with
  | Some (c :: s) => c :: s
  | _ => []
  end.

(** The statements of the [try] block that follow the model call. *)
Definition parse_llm_response (llm_response : str) : option ProductRecord :=
  if contains SENTINEL llm_response then None
  else
    let product_name :=
      if contains NAME_ANCHOR llm_response
      then Some (field_after NAME_ANCHOR llm_response)
      else None in
    let product_description :=
      if contains DESC_ANCHOR llm_response
      then Some (cap_description (field_after DESC_ANCHOR llm_response))
      else None in
    match product_name with
    | Some (c :: s) =>
        Some {| new_product := c :: s;
                product_description := or_empty product_description |}
    | _ => None
    end.

Definition generate (w : World) (model prompt : str) : M str :=
  fun s => (ollama_generate w (trace s) model prompt,
            logged s [EvGenerate model prompt]).

Definition extract_product_info (w : World) (filing_content : option str)
    (company_name ticker : str) : M (option ProductRecord) :=
  match filing_content with
  | None | Some [] => ret None
  | Some content =>
      let prompt := build_prompt content company_name ticker in
      try_except
        (llm_response <- generate w MODEL prompt ;;
         ret (parse_llm_response llm_response))
        (fun e => print (MsgErrorLLM e) ;;; ret None)
  end.

(** *** The driver loop *)

(** A row of the company table, as the loop reads it: the cells under
    'cik_str', 'ticker' and 'title', each of them a string.  The table
    itself is built by a data-frame library from the list of companies
    before the loop starts; the embedding starts at the loop. *)
Record CompanyRef : Type := {
  cik_str : str;
  ticker : str;
  title : str
}.

Definition append_row (r : ResultRow) : M unit :=
  fun s => (Ok tt, {| trace := trace s; results_df := results_df s ++ [r] |}).

(** The row the driver builds from one extraction. *)
Definition result_row (company : CompanyRef) (filing_date : value)
    (product_info : ProductRecord) : ResultRow :=
  {| row_company_name := title company;
     row_stock_name := ticker company;
     row_filing_time := filing_date;
     row_new_product := new_product product_info;
     row_product_description := product_description product_info |}.

(** The body of the inner [for] loop. *)
Definition process_filing (w : World) (company : CompanyRef) (filing : FilingRef)
  : M unit :=
  let '(filing_date, accession_number) := filing in
  print (MsgAnalyzing filing_date) ;;;
  content <- get_filing_content w accession_number (cik_str company) ;;
  product_info <- extract_product_info w content (title company) (ticker company) ;;
  match product_info with
  | Some info =>
      append_row (result_row company filing_date info) ;;;
      print (MsgFound (new_product info))
  | None => ret tt
  end ;;;
  sleep 1.

(** The body of the outer [for] loop. *)
Definition process_company (w : World) (company : CompanyRef) : M unit :=
  print (MsgProcessing (title company) (cik_str company) (ticker company)) ;;;
  filings <- get_8k_filings w (cik_str company) ;;
  for_each (process_filing w company) (firstn 5 filings).

(** ** The form filter, in the words of the specification *)

Definition is_8k (form : value) : bool := PyObj.eq_str form (of_string "8-K").

(** Of the entries of the three parallel arrays, those whose form type is
    the target code, as (filing date, accession number) pairs in the order
    of the arrays. *)
Definition spec_form_filter (forms dates accessions : list value) : list FilingRef :=
  List.map (fun e => (snd (fst e), snd e))
    (filter (fun e => is_8k (fst (fst e)))
       (combine (combine forms dates) accessions)).

(** A parsed response in which the 'filings' key, or the 'recent' key
    under it, is missing. *)
Definition lacks_keys (data : value) : bool :=
  match data with
  | VDict d =>
      match PyObj.lookup (of_string "filings") d with
      | None => true
      | Some (VDict f) =>
          match PyObj.lookup (of_string "recent") f with
          | None => true
          | Some _ => false
          end
      | Some _ => false
      end
  | _ => false
  end.

(** The test of the [if] of [get_8k_filings],
    ['filings' in filings_data and 'recent' in filings_data['filings']]:
    its value, or the error its evaluation raises. *)
Definition keys_test (filings_data : value) : result bool :=
  match PyObj.py_in (of_string "filings") filings_data with
  | Raise e => Raise e
  | Ok false => Ok false
  | Ok true =>
      match PyObj.getitem filings_data (of_string "filings") with
      | Raise e => Raise e
      | Ok filings => PyObj.py_in (of_string "recent") filings
      end
  end.

(** Computations that leave the store as it is. *)
Definition silent {A} (c : M A) : Prop := forall s, snd (c s) = s.

(** ** What a trace shows of the driver's work *)

(** The filing dates announced by "Analyzing filing from ...". *)
Fixpoint analyzed (events : list event) : list value :=
  match events with
  | [] => []
  | EvPrint (MsgAnalyzing filing_date) :: rest => filing_date :: analyzed rest
  | _ :: rest => analyzed rest
  end.

(** The addresses requested. *)
Fixpoint requested (events : list event) : list str :=
  match events with
  | [] => []
  | EvGet url _ :: rest => url :: requested rest
  | _ :: rest => requested rest
  end.

(** Events that announce no filing and request nothing. *)
Definition quiet (events : list event) : Prop :=
  analyzed events = [] /\ requested events = [].

Definition is_str (v : value) : bool :=
  match v with VStr _ => true | _ => false end.

(** The document address of a filing whose accession number is a string. *)
Definition document_url (cik : str) (filing : FilingRef) : str :=
  match snd filing with
  | VStr accession =>
      filing_url cik (replace (of_string "-") [] accession) accession
  | _ => []
  end.

(** What one filing may add to the result table: nothing, or one row built
    from a record with a non-empty product name. *)
Definition filing_rows (company : CompanyRef) (filing : FilingRef)
    (rows : list ResultRow) : Prop :=
  rows = [] \/
  exists info, new_product info <> [] /\
               rows = [result_row company (fst filing) info].

(** What one company may add: the rows of at most five filings, filing by
    filing. *)
Definition company_rows (company : CompanyRef) (rows : list ResultRow) : Prop :=
  exists (filings : list FilingRef) (parts : list (list ResultRow)),
    length filings <= 5 /\
    Forall2 (filing_rows company) filings parts /\
    rows = concat parts.

(** [s'] is [s] after the events [events] happened and the rows [rows]
    were appended to the result table. *)
Definition after (s s' : Store) (events : list event) (rows : list ResultRow) : Prop :=
  trace s' = trace s ++ events /\ results_df s' = results_df s ++ rows.

(** ** The discoveries of the driver, in the words of the specification *)

(** A store that holds the events [t] and an empty table. *)
Definition bare (t : list event) : Store := {| trace := t; results_df := [] |}.

(** Computations that read the events of the store only, and leave its
    table as it is. *)
Definition blind {A} (c : M A) : Prop :=
  forall s, c s = (fst (c (bare (trace s))),
                   {| trace := trace (snd (c (bare (trace s))));
                      results_df := results_df s |}).

(** A (company, filing) pair the driver came to, with what the extraction
    for it yielded: a record or nothing. *)
Definition Discovery : Type :=
  (CompanyRef * FilingRef * option ProductRecord)%type.

(** The extraction for a filing of a company once the events [t] have
    happened: the filing is announced, its content is fetched and handed
    to the extractor.  The yield of the extraction and the events after
    it; the error when the content fetcher raises. *)
Definition examine (w : World) (company : CompanyRef) (filing : FilingRef)
    (t : list event) : result (option ProductRecord) * list event :=
  let '(yield, s) :=
    (content <- get_filing_content w (snd filing) (cik_str company) ;;
     extract_product_info w content (title company) (ticker company))
      (bare (t ++ [EvPrint (MsgAnalyzing (fst filing))])) in
  (yield, trace s).

(** The events that close the work on a filing: the message about the
    product when there is one, and the pause. *)
Definition closing (yield : option ProductRecord) : list event :=
  match yield with
  | Some info => [EvPrint (MsgFound (new_product info)); EvSleep 1]
  | None => [EvSleep 1]
  end.

(** The discoveries made on the filings of one company, in the order of
    the filings, with the way the work ends and the events after it.  An
    error ends the work; the filing at which it is raised is no discovery,
    as no extraction took place for it. *)
Fixpoint filings_journal (w : World) (company : CompanyRef)
    (filings : list FilingRef) (t : list event)
  : list Discovery * result unit * list event :=
  match filings with
  | [] => ([], Ok tt, t)
  | filing :: rest =>
      match examine w company filing t with
      | (Raise e, t1) => ([], Raise e, t1)
      | (Ok yield, t1) =>
          let '(journal, res, t2) :=
            filings_journal w company rest (t1 ++ closing yield) in
          ((company, filing, yield) :: journal, res, t2)
      end
  end.

(** The discoveries made on the companies, in the order of the companies:
    for each company, those made on the first five filings its index
    fetch returns. *)
Fixpoint companies_journal (w : World) (companies : list CompanyRef)
    (t : list event) : list Discovery * result unit * list event :=
  match companies with
  | [] => ([], Ok tt, t)
  | company :: rest =>
      match get_8k_filings w (cik_str company)
              (bare (t ++ [EvPrint (MsgProcessing (title company) (cik_str company)
                                      (ticker company))])) with
      | (Raise e, s1) => ([], Raise e, trace s1)
      | (Ok filings, s1) =>
          match filings_journal w company (firstn 5 filings) (trace s1) with
          | (journal, Raise e, t2) => (journal, Raise e, t2)
          | (journal, Ok _, t2) =>
              let '(journal', res, t3) := companies_journal w rest t2 in
              (journal ++ journal', res, t3)
          end
      end
  end.

(** The rows the discoveries call for: one row for each discovery whose
    extraction yielded a record, in the order of the discoveries. *)
Definition rows_of (journal : list Discovery) : list ResultRow :=
  flat_map (fun d : Discovery =>
              match d with
              | (company, filing, Some info) =>
                  [result_row company (fst filing) info]
              | (_, _, None) => []
              end) journal.

(** ** The glyph replacement, character by character *)

(** What the four single-character replacements make of a character. *)
Definition to_space (c : char) : char :=
  if char_eqb c NBSP || char_eqb c THIN_SPACE || char_eqb c EN_SPACE
     || char_eqb c EM_SPACE
  then SPACE else c.

(** A space, or a character the normalization turns into a space. *)
Definition space_like (c : char) : bool := char_eqb (to_space c) SPACE.

(** No two ballot boxes stand with exactly one space-like character
    between them. *)
Fixpoint box_pair_free (t : str) : bool :=
  match t with
  | a :: rest =>
      match rest with
      | b :: c :: _ =>
          negb (char_eqb a BALLOT_BOX && space_like b && char_eqb c BALLOT_BOX)
      | _ => true
      end && box_pair_free rest
  | [] => true
  end.

(** The text the last replacement looks for, the replacement itself, and
    two ballot boxes with one space between them. *)
Definition BOXED : str := [SPACE; BALLOT_BOX; SPACE].
Definition unbox (s : str) : str := replace BOXED [SPACE] s.
Definition BOX_PAIR : str := [BALLOT_BOX; SPACE; BALLOT_BOX].

(** ** Concrete inputs used by the examples below *)

Definition empty_store : Store := {| trace := []; results_df := [] |}.

(** A world whose filing index answers [index], whose model answers
    [reply], and whose documents carry no markup: the text of a document
    without markup is its single text node, stripped. *)
Definition name_only_reply : str := of_string "1. New Product Name: Vision Pro 2".

Definition document_response : response :=
  {| status_code := 200; text := of_string "filing text"; json := None |}.

Definition plain_world (index : result response) (reply : result str) : World :=
  {| requests_get := fun _ url =>
       if starts_with (of_string "https://data.sec.gov/") url
       then index else Ok document_response;
     ollama_generate := fun _ _ _ => reply;
     soup_get_text := strip |}.

Definition ok_response (body : option value) : response :=
  {| status_code := 200; text := []; json := body |}.

Definition index_json (forms dates accessions : list value) : value :=
  VDict [(of_string "filings",
          VDict [(of_string "recent",
                  VDict [(of_string "accessionNumber", VList accessions);
                         (of_string "filingDate", VList dates);
                         (of_string "form", VList forms)])])].

Definition vstr (s : string) : value := VStr (of_string s).

Definition sample_forms : list value :=
  [vstr "8-K"; vstr "10-Q"; vstr "8-K"; vstr "4"; vstr "8-K/A"].
Definition sample_dates : list value :=
  [vstr "2024-05-02"; vstr "2024-05-01"; vstr "2024-02-01"; vstr "2024-01-15";
   vstr "2023-11-02"].
Definition sample_accessions : list value :=
  [vstr "0000320193-24-000069"; vstr "0000320193-24-000064";
   vstr "0000320193-24-000005"; vstr "0000320193-24-000002";
   vstr "0000320193-23-000104"].

Definition sample_world : World :=
  plain_world
    (Ok (ok_response (Some (index_json sample_forms sample_dates sample_accessions))))
    (Ok name_only_reply).

Definition apple_cik : str := of_string "0000320193".

Definition apple : CompanyRef :=
  {| cik_str := apple_cik;
     ticker := of_string "AAPL";
     title := of_string "Apple Inc." |}.

Definition seven_dates : list value :=
  [vstr "2024-08-01"; vstr "2024-05-02"; vstr "2024-02-28"; vstr "2024-02-01";
   vstr "2023-11-02"; vstr "2023-08-03"; vstr "2023-05-04"].
Definition seven_accessions : list value :=
  [vstr "0000320193-24-000080"; vstr "0000320193-24-000069";
   vstr "0001140361-24-010155"; vstr "0000320193-24-000005";
   vstr "0000320193-23-000104"; vstr "0000320193-23-000075";
   vstr "0000320193-23-000063"].

(** A company with seven 8-K filings. *)
Definition seven_world : World :=
  plain_world
    (Ok (ok_response
           (Some (index_json (repeat (vstr "8-K") 7) seven_dates seven_accessions))))
    (Ok name_only_reply).

(** The same company when the third of its seven filings carries a number
    where the accession number should be. *)
Definition seven_accessions_one_numeric : list value :=
  [vstr "0000320193-24-000080"; vstr "0000320193-24-000069";
   VInt 114036124010155; vstr "0000320193-24-000005";
   vstr "0000320193-23-000104"; vstr "0000320193-23-000075";
   vstr "0000320193-23-000063"].

Definition seven_world_one_numeric : World :=
  plain_world
    (Ok (ok_response
           (Some (index_json (repeat (vstr "8-K") 7) seven_dates
                    seven_accessions_one_numeric))))
    (Ok name_only_reply).

(** "a [] [] b" and "a[][]b" where [] is the ballot box, the latter with
    a no-break space and a thin space around the first box. *)
Definition two_boxes : str :=
  of_string "a " ++ [BALLOT_BOX; SPACE; BALLOT_BOX] ++ of_string " b".
Definition one_box : str :=
  of_string "a" ++ [NBSP; BALLOT_BOX; THIN_SPACE] ++ of_string "b".

(** An index whose only 8-K filing carries a number where the accession
    number should be. *)
Definition numeric_world : World :=
  plain_world
    (Ok (ok_response
           (Some (index_json [vstr "8-K"] [vstr "2024-05-02"] [VInt 69]))))
    (Ok name_only_reply).

(** An index response with status 200 whose body is the empty object. *)
Definition keyless_world : World :=
  plain_world (Ok (ok_response (Some (VDict [])))) (Ok name_only_reply).

(** Index bodies that are no object, or hold no object under 'filings'. *)
Definition null_filings : value := VDict [(of_string "filings", VNone)].

Definition null_world : World :=
  plain_world (Ok (ok_response (Some VNone))) (Ok name_only_reply).

Definition scenario8_reply : str :=
  of_string "New Product Name: Vision Pro 2" ++ [NL]
  ++ of_string "Product Description: Next-gen headset" ++ [NL]
  ++ of_string "No new product found".

Definition widget_reply : str := of_string "Product Description: Widget X".

Definition long_description : str := repeat 97%N 181.

Definition long_reply : str :=
  of_string "New Product Name: Vision Pro 2" ++ [NL]
  ++ of_string "Product Description: " ++ long_description.

(** ** Words for the further properties *)

Definition TEXT_OPEN : str := of_string "<TEXT>".
Definition TEXT_CLOSE : str := of_string "</TEXT>".
Definition DASH : char := 45%N.

(** One of the four whitespace glyphs the normalization replaces. *)
Definition is_glyph (c : char) : bool :=
  char_eqb c NBSP || char_eqb c THIN_SPACE || char_eqb c EN_SPACE
  || char_eqb c EM_SPACE.

(** A reply in the format the prompt asks for: the two anchors, each
    followed by a space and its field, on two lines. *)
Definition formatted_reply (name description : str) : str :=
  NAME_ANCHOR ++ SPACE :: name ++ NL :: DESC_ANCHOR ++ SPACE :: description.

(** Kinds of events, and how many of a kind a trace holds. *)
Definition is_request (e : event) : bool :=
  match e with EvGet _ _ => true | _ => false end.
Definition is_model_call (e : event) : bool :=
  match e with EvGenerate _ _ => true | _ => false end.
Definition is_sleep (e : event) : bool :=
  match e with EvSleep _ => true | _ => false end.

Definition count (kind : event -> bool) (events : list event) : nat :=
  length (filter kind events).

(** The first line of a text: what precedes its first line break. *)
Definition first_line (s : str) : str :=
  match index_of [NL] s with
  | Some k => firstn k s
  | None => s
  end.

Definition sample_name : str := of_string "Vision Pro 2".
Definition sample_description : str := of_string "Next-gen headset".

(** An index whose 'recent' object holds the forms only. *)
Definition forms_only_world : World :=
  plain_world
    (Ok (ok_response
           (Some (VDict [(of_string "filings",
                          VDict [(of_string "recent",
                                  VDict [(of_string "form",
                                          VList [vstr "10-K"; vstr "8-K"])])])]))))
    (Ok name_only_reply).

(** An index without any 8-K form and without the other arrays. *)
Definition no_8k_world : World :=
  plain_world
    (Ok (ok_response
           (Some (VDict [(of_string "filings",
                          VDict [(of_string "recent",
                                  VDict [(of_string "form",
                                          VList [vstr "10-K"; vstr "4"])])])]))))
    (Ok name_only_reply).

(** The prompt around the sentinel phrase it quotes. *)
Definition prompt_before_sentinel (company_name ticker : str) : str :=
  line " "
  ++ line "    Analyze this SEC 8-K filing and extract information about any new product releases or announcements. "
  ++ [NL]
  ++ of_string "    Company: " ++ company_name ++ line " "
  ++ of_string "    Ticker: " ++ ticker ++ line " "
  ++ [NL]
  ++ line "    Task: Extract the following information in a structured format: "
  ++ line "    1. New Product Name: [Name of the new product] "
  ++ line "    2. Product Description: [Brief description of the product, less than 180 characters] "
  ++ [NL]
  ++ of_string "    If no new product is mentioned in the filing, respond with "
  ++ [QUOTE].

Definition prompt_after_sentinel (filing_content : str) : str :=
  [QUOTE] ++ line ". "
  ++ [NL]
  ++ line "    Filing content: "
  ++ of_string "    " ++ filing_content ++ line "  # Limit content length "
  ++ of_string "    ".

Definition is_print (e : event) : bool :=
  match e with EvPrint _ => true | _ => false end.

(** Events that are log messages or calls of the model. *)
Definition message_or_call (e : event) : Prop :=
  is_print e = true \/ is_model_call e = true.

(** What the trace shows of one filing that was worked through: the
    announcement, the request for its document, then log messages and at
    most one call of the model, then the pause of one second. *)
Definition filing_block (company : CompanyRef) (filing : FilingRef)
    (block : list event) : Prop :=
  exists middle,
    block = [EvPrint (MsgAnalyzing (fst filing));
             EvGet (document_url (cik_str company) filing) USER_AGENT]
            ++ middle ++ [EvSleep 1] /\
    Forall message_or_call middle /\
    count is_model_call middle <= 1.

Definition sample_filings : list FilingRef :=
  [(vstr "2024-05-02", vstr "0000320193-24-000069");
   (vstr "2024-02-01", vstr "0000320193-24-000005")].

(** How many requests, model calls and pauses a list of events may hold
    at most. *)
Definition within_budget (requests calls pauses : nat)
    (events : list event) : Prop :=
  count is_request events <= requests /\
  count is_model_call events <= calls /\
  count is_sleep events <= pauses.

(** * Properties *)

(** ** The parser of the model's reply *)

Lemma parse_sentinel (reply : str) :
  contains SENTINEL reply = true -> parse_llm_response reply = None.
Proof.
  intros H. unfold parse_llm_response. now rewrite H.
Qed.

Lemma parse_no_name (reply : str) :
  contains NAME_ANCHOR reply = false \/ field_after NAME_ANCHOR reply = [] ->
  parse_llm_response reply = None.
Proof.
  intros H. unfold parse_llm_response.
  destruct (contains SENTINEL reply); [reflexivity|].
  destruct (contains NAME_ANCHOR reply).
  - destruct H as [H|H]; [discriminate|]. now rewrite H.
  - reflexivity.
Qed.

Lemma parse_some_inv (reply : str) (r : ProductRecord) :
  parse_llm_response reply = Some r ->
  contains SENTINEL reply = false /\
  contains NAME_ANCHOR reply = true /\
  new_product r = field_after NAME_ANCHOR reply /\
  new_product r <> [] /\
  product_description r =
    or_empty (if contains DESC_ANCHOR reply
              then Some (cap_description (field_after DESC_ANCHOR reply))
              else None).
Proof.
  unfold parse_llm_response.
  destruct (contains SENTINEL reply); [discriminate|].
  destruct (contains NAME_ANCHOR reply); [|discriminate].
  destruct (field_after NAME_ANCHOR reply) as [|c n]; [discriminate|].
  intros E. injection E as <-. cbn. repeat split. discriminate.
Qed.

Lemma or_empty_some (d : str) : or_empty (Some d) = d.
Proof. now destruct d. Qed.

(** Running the extractor on a non-empty filing text whose model call
    answers [reply]. *)
Lemma extract_with_reply (w : World) (content name tick reply : str) (s : Store) :
  content <> [] ->
  ollama_generate w (trace s) MODEL (build_prompt content name tick) = Ok reply ->
  extract_product_info w (Some content) name tick s =
    (Ok (parse_llm_response reply),
     logged s [EvGenerate MODEL (build_prompt content name tick)]).
Proof.
  intros Hc Hr. destruct content as [|c content]; [congruence|].
  unfold extract_product_info, try_except, bind, generate, ret.
  now rewrite Hr.
Qed.

Lemma extract_empty (w : World) (name tick : str) (s : Store) :
  extract_product_info w (Some []) name tick s = (Ok None, s).
Proof. reflexivity. Qed.

(** C1: a reply that contains "No new product found" anywhere gives an
    absent result, whatever anchors the reply also holds. *)
Theorem sentinel_overrides_anchors
    (w : World) (content name tick reply : str) (s : Store) :
  contains SENTINEL reply = true ->
  ollama_generate w (trace s) MODEL (build_prompt content name tick) = Ok reply ->
  parse_llm_response reply = None /\
  fst (extract_product_info w (Some content) name tick s) = Ok None.
Proof.
  intros Hs Hr. split; [now apply parse_sentinel|].
  destruct content as [|c content]; [reflexivity|].
  rewrite (extract_with_reply w name tick s (reply := reply)) by (discriminate || assumption).
  cbn. now rewrite parse_sentinel.
Qed.

Lemma sentinel_overrides_anchors_witness :
  contains NAME_ANCHOR scenario8_reply = true /\
  contains DESC_ANCHOR scenario8_reply = true /\
  fst (extract_product_info (plain_world (Raise RequestException) (Ok scenario8_reply))
         (Some (of_string "filing")) (of_string "Apple Inc.") (of_string "AAPL")
         empty_store) = Ok None.
Proof.
  split; [reflexivity|]. split; [reflexivity|].
  apply (sentinel_overrides_anchors
           (plain_world (Raise RequestException) (Ok scenario8_reply))
           (of_string "filing") (of_string "Apple Inc.") (of_string "AAPL")
           empty_store (reply := scenario8_reply)); reflexivity.
Defined.

(** C2: when no product name is extracted (the name anchor is absent, or
    the text after it strips to the empty string) the result is absent,
    also when a description was found. *)
Theorem missing_name_yields_absent
    (w : World) (content name tick reply : str) (s : Store) :
  contains NAME_ANCHOR reply = false \/ field_after NAME_ANCHOR reply = [] ->
  ollama_generate w (trace s) MODEL (build_prompt content name tick) = Ok reply ->
  parse_llm_response reply = None /\
  fst (extract_product_info w (Some content) name tick s) = Ok None.
Proof.
  intros Hn Hr. split; [now apply parse_no_name|].
  destruct content as [|c content]; [reflexivity|].
  rewrite (extract_with_reply w name tick s (reply := reply)) by (discriminate || assumption).
  cbn. now rewrite parse_no_name.
Qed.

Lemma missing_name_yields_absent_witness :
  contains DESC_ANCHOR widget_reply = true /\
  field_after DESC_ANCHOR widget_reply = of_string "Widget X" /\
  fst (extract_product_info (plain_world (Raise RequestException) (Ok widget_reply))
         (Some (of_string "filing")) (of_string "Apple Inc.") (of_string "AAPL")
         empty_store) = Ok None.
Proof.
  split; [reflexivity|]. split; [reflexivity|].
  apply (missing_name_yields_absent
           (plain_world (Raise RequestException) (Ok widget_reply))
           (of_string "filing") (of_string "Apple Inc.") (of_string "AAPL")
           empty_store (reply := widget_reply)).
  - left. reflexivity.
  - reflexivity.
Defined.

(** ** Truncation of the description *)

Lemma clip_zero (n : Z) : (0 <= n)%Z -> clip n 0 = O.
Proof. intros H. unfold clip. cbn. lia. Qed.

Lemma slice_to_firstn (d : str) (n : Z) :
  (0 <= n)%Z -> slice_to d n = firstn (Z.to_nat n) d.
Proof.
  intros Hn. unfold slice_to, slice, len.
  rewrite clip_zero by lia. cbn [skipn]. rewrite Nat.sub_0_r.
  unfold clip. destruct (Z.ltb_spec n 0); [lia|].
  destruct (Z.le_gt_cases n (Z.of_nat (length d))) as [Hle|Hgt].
  - now rewrite Z.min_l by lia.
  - rewrite Z.min_r by lia. rewrite Nat2Z.id.
    rewrite !firstn_all2; [reflexivity| lia | lia].
Qed.

Lemma cap_description_long (d : str) :
  (180 < len d)%Z ->
  cap_description d = firstn 177 d ++ ELLIPSIS /\ len (cap_description d) = 180%Z.
Proof.
  intros H. unfold cap_description.
  assert (Ht : truthy d = true) by (destruct d; [cbn in H; lia | reflexivity]).
  rewrite Ht. apply Z.ltb_lt in H as Hb. rewrite Hb. cbn [andb].
  rewrite slice_to_firstn by lia.
  change (Z.to_nat 177) with 177%nat. split; [reflexivity|].
  unfold len in *. rewrite length_app, firstn_length_le by lia.
  reflexivity.
Qed.

Lemma cap_description_short (d : str) :
  (len d <= 180)%Z -> cap_description d = d.
Proof.
  intros H. unfold cap_description.
  apply Z.ltb_ge in H. rewrite H. now rewrite andb_false_r.
Qed.

(** C3: an extracted description longer than 180 characters is replaced by
    its first 177 characters followed by "...", 180 characters in all; a
    description of at most 180 characters is left as it is.  The
    description of a returned record is the text after the description
    anchor treated so. *)
Theorem description_truncation (d : str) :
  ((180 < len d)%Z ->
     cap_description d = firstn 177 d ++ ELLIPSIS /\
     len (cap_description d) = 180%Z) /\
  ((len d <= 180)%Z -> cap_description d = d) /\
  (forall (reply : str) (r : ProductRecord),
     parse_llm_response reply = Some r ->
     contains DESC_ANCHOR reply = true ->
     field_after DESC_ANCHOR reply = d ->
     product_description r = cap_description d).
Proof.
  split; [apply cap_description_long|]. split; [apply cap_description_short|].
  intros reply r Hp Hd <-. apply parse_some_inv in Hp as (_ & _ & _ & _ & Hdesc).
  now rewrite Hd, or_empty_some in Hdesc.
Qed.

Lemma description_truncation_witness :
  len long_description = 181%Z /\
  cap_description long_description = repeat 97%N 177 ++ ELLIPSIS /\
  len (cap_description long_description) = 180%Z /\
  exists r, parse_llm_response long_reply = Some r /\
            product_description r = repeat 97%N 177 ++ ELLIPSIS.
Proof.
  split; [reflexivity|].
  split; [exact (proj1 (proj1 (description_truncation long_description) eq_refl))|].
  split; [exact (proj2 (proj1 (description_truncation long_description) eq_refl))|].
  eexists. split; [reflexivity|]. reflexivity.
Defined.

(** ** The guard on the filing text *)

(** C4: with an absent or empty filing text the extractor returns an
    absent result at once; the store is left as it was, so that no call of
    the model is recorded. *)
Theorem empty_input_guard
    (w : World) (filing_content : option str) (name tick : str) (s : Store) :
  filing_content = None \/ filing_content = Some [] ->
  extract_product_info w filing_content name tick s = (Ok None, s).
Proof.
  intros [-> | ->]; reflexivity.
Qed.

Lemma empty_input_guard_witness :
  extract_product_info (plain_world (Raise RequestException) (Ok name_only_reply))
    (Some []) (of_string "Apple Inc.") (of_string "AAPL") empty_store
  = (Ok None, empty_store).
Proof.
  apply (empty_input_guard
           (plain_world (Raise RequestException) (Ok name_only_reply))
           (of_string "Apple Inc.") (of_string "AAPL") empty_store
           (filing_content := Some [])).
  right. reflexivity.
Defined.

(** A non-empty filing text does reach the model: the call is recorded. *)
Lemma nonempty_input_calls_model
    (w : World) (content name tick : str) (s : Store) :
  content <> [] ->
  exists rest,
    trace (snd (extract_product_info w (Some content) name tick s)) =
    trace s ++ EvGenerate MODEL (build_prompt content name tick) :: rest.
Proof.
  intros Hc. destruct content as [|c content]; [congruence|].
  unfold extract_product_info, try_except, bind, generate, ret, print, emit.
  destruct (ollama_generate w (trace s) MODEL _); cbn.
  - exists []. reflexivity.
  - eexists. rewrite <- app_assoc. reflexivity.
Qed.

(** ** A record without description *)

(** C10: when a non-empty name is extracted and no description is (the
    description anchor is absent, or the text after it strips to the empty
    string), the result is a record whose description is the empty
    string. *)
Theorem missing_description_yields_empty
    (w : World) (content name tick reply : str) (s : Store) :
  content <> [] ->
  contains SENTINEL reply = false ->
  contains NAME_ANCHOR reply = true ->
  field_after NAME_ANCHOR reply <> [] ->
  contains DESC_ANCHOR reply = false \/ field_after DESC_ANCHOR reply = [] ->
  ollama_generate w (trace s) MODEL (build_prompt content name tick) = Ok reply ->
  fst (extract_product_info w (Some content) name tick s) =
    Ok (Some {| new_product := field_after NAME_ANCHOR reply;
                product_description := [] |}).
Proof.
  intros Hc Hs Hn Hne Hd Hr.
  rewrite (extract_with_reply w name tick s (reply := reply)) by assumption.
  cbn [fst]. f_equal. unfold parse_llm_response. rewrite Hs, Hn.
  destruct (field_after NAME_ANCHOR reply) as [|c n]; [congruence|].
  do 2 f_equal.
  destruct (contains DESC_ANCHOR reply); [|reflexivity].
  destruct Hd as [Hd|Hd]; [discriminate|]. now rewrite Hd.
Qed.

Lemma missing_description_yields_empty_witness :
  fst (extract_product_info (plain_world (Raise RequestException) (Ok name_only_reply))
         (Some (of_string "filing")) (of_string "Apple Inc.") (of_string "AAPL")
         empty_store) =
    Ok (Some {| new_product := of_string "Vision Pro 2"; product_description := [] |}).
Proof.
  apply (missing_description_yields_empty
           (plain_world (Raise RequestException) (Ok name_only_reply))
           (of_string "Apple Inc.") (of_string "AAPL") empty_store
           (content := of_string "filing") (reply := name_only_reply)).
  - discriminate.
  - reflexivity.
  - reflexivity.
  - discriminate.
  - left. reflexivity.
  - reflexivity.
Defined.

(** ** The index fetcher *)

Lemma map_result_ext {A B} (f g : A -> result B) (l : list A) :
  (forall x, f x = g x) -> map_result f l = map_result g l.
Proof.
  intros H. induction l as [|x l IH]; cbn; [reflexivity|].
  now rewrite H, IH.
Qed.

Lemma skipn_cons_nth {A} (k : nat) (col : list A) (d : A) (rest : list A) :
  skipn k col = d :: rest ->
  nth_error col k = Some d /\ skipn (S k) col = rest.
Proof.
  revert col. induction k as [|k IH]; intros col H.
  - destruct col; cbn in H; [discriminate|]. injection H as -> ->. now split.
  - destruct col as [|c col]; [discriminate|]. cbn [skipn] in H.
    apply IH in H. exact H.
Qed.

(** Picking a column at the indices of the matching forms is filtering the
    column zipped with the forms. *)
Lemma pick_column (forms : list value) :
  forall (k : nat) (col rest : list value),
    skipn k col = rest ->
    length rest = length forms ->
    map_result (PyObj.getindex (VList col)) (indices_8k k forms) =
    Ok (List.map snd (filter (fun p => is_8k (fst p)) (combine forms rest))).
Proof.
  induction forms as [|form forms IH]; intros k col rest Hs Hl.
  - reflexivity.
  - destruct rest as [|d rest]; [discriminate|].
    apply skipn_cons_nth in Hs as [Hn Hs].
    injection Hl as Hl.
    specialize (IH (S k) col rest Hs Hl).
    cbn [indices_8k combine filter fst]. unfold is_8k in *.
    destruct (PyObj.eq_str form (of_string "8-K")).
    + cbn [map_result PyObj.getindex]. rewrite Hn, IH. reflexivity.
    + exact IH.
Qed.

Lemma pick_spec (recent : list (str * value)) (key : str) (forms col : list value) :
  PyObj.lookup key recent = Some (VList col) ->
  length col = length forms ->
  pick (VDict recent) key (indices_8k 0 forms) =
  Ok (List.map snd (filter (fun p => is_8k (fst p)) (combine forms col))).
Proof.
  intros Hk Hl. unfold pick.
  rewrite (map_result_ext _ (PyObj.getindex (VList col))).
  - now apply pick_column.
  - intros i. cbn. now rewrite Hk.
Qed.

Lemma combine_filtered (forms : list value) :
  forall dates accessions : list value,
    length dates = length forms ->
    length accessions = length forms ->
    combine
      (List.map snd (filter (fun p => is_8k (fst p)) (combine forms dates)))
      (List.map snd (filter (fun p => is_8k (fst p)) (combine forms accessions)))
    = spec_form_filter forms dates accessions.
Proof.
  unfold spec_form_filter.
  induction forms as [|form forms IH]; intros dates accessions Hd Ha.
  - reflexivity.
  - destruct dates as [|d dates]; [discriminate|].
    destruct accessions as [|a accessions]; [discriminate|].
    injection Hd as Hd. injection Ha as Ha.
    cbn [combine filter fst snd]. destruct (is_8k form); cbn [List.map combine snd fst].
    + f_equal. now apply IH.
    + now apply IH.
Qed.

Lemma indices_nil_filter (forms : list value) :
  forall k, indices_8k k forms = [] ->
  forall dates accessions, spec_form_filter forms dates accessions = [].
Proof.
  unfold spec_form_filter.
  induction forms as [|form forms IH]; intros k H dates accessions.
  - reflexivity.
  - cbn [indices_8k] in H. fold (is_8k form) in H.
    destruct dates as [|d dates]; [reflexivity|].
    destruct accessions as [|a accessions]; [reflexivity|].
    cbn [combine filter fst]. destruct (is_8k form); [discriminate|].
    now apply (IH (S k)).
Qed.

Lemma spec_form_filter_length (forms : list value) :
  forall dates accessions : list value,
    length dates = length forms ->
    length accessions = length forms ->
    length (spec_form_filter forms dates accessions) = length (filter is_8k forms).
Proof.
  unfold spec_form_filter.
  induction forms as [|form forms IH]; intros dates accessions Hd Ha.
  - reflexivity.
  - destruct dates as [|d dates]; [discriminate|].
    destruct accessions as [|a accessions]; [discriminate|].
    injection Hd as Hd. injection Ha as Ha.
    cbn [combine filter fst]. destruct (is_8k form); cbn [List.map length].
    + f_equal. now apply IH.
    + now apply IH.
Qed.

(** The selection on a response of the expected shape. *)
Lemma select_8k_well_formed
    (data filings recent : list (str * value)) (forms dates accessions : list value)
    (s : Store) :
  PyObj.lookup (of_string "filings") data = Some (VDict filings) ->
  PyObj.lookup (of_string "recent") filings = Some (VDict recent) ->
  PyObj.lookup (of_string "form") recent = Some (VList forms) ->
  PyObj.lookup (of_string "filingDate") recent = Some (VList dates) ->
  PyObj.lookup (of_string "accessionNumber") recent = Some (VList accessions) ->
  length dates = length forms ->
  length accessions = length forms ->
  select_8k (VDict data) s = (Ok (spec_form_filter forms dates accessions), s).
Proof.
  intros Hf Hr Hform Hd Ha Hld Hla.
  unfold select_8k, bind, lift, ret. cbn [PyObj.py_in PyObj.getitem].
  rewrite Hf. cbn [PyObj.py_in PyObj.getitem]. rewrite Hr.
  cbn [PyObj.get]. rewrite Hform. cbn [PyObj.iterate].
  destruct (indices_8k 0 forms) as [|i rest] eqn:Hidx.
  - now rewrite (indices_nil_filter forms 0 Hidx).
  - rewrite <- Hidx.
    rewrite (pick_spec recent _ forms Hd Hld), (pick_spec recent _ forms Ha Hla).
    now rewrite combine_filtered.
Qed.

(** The fetcher once the request succeeded and the body parsed. *)
(** The first steps of the index fetcher: the request, whose answer [Hg]
    tells, and the sequencing of a lifted result. *)
Ltac run_request Hg :=
  unfold get_8k_filings, try_except, bind at 1, http_get; rewrite Hg.
Ltac run_lifted H := unfold bind at 1, lift at 1; rewrite H.

Lemma get_8k_filings_parsed
    (w : World) (cik : str) (s : Store) (r : response) (data : value) :
  requests_get w (trace s) (search_url cik) = Ok r ->
  raise_for_status r = Ok tt ->
  json r = Some data ->
  get_8k_filings w cik s =
  try_except (select_8k data) (fun e => print (MsgError8K cik e) ;;; ret [])
    (logged s [EvGet (search_url cik) USER_AGENT]).
Proof.
  intros Hg Hs Hj. run_request Hg. run_lifted Hs.
  unfold response_json. run_lifted Hj. reflexivity.
Qed.

(** C5: on a well-formed index response the fetcher returns the (filing
    date, accession number) pairs of the entries whose form type is "8-K",
    one per such entry and in the order of the arrays. *)
Theorem form_filtering
    (w : World) (cik : str) (s : Store) (r : response)
    (data filings recent : list (str * value)) (forms dates accessions : list value) :
  requests_get w (trace s) (search_url cik) = Ok r ->
  raise_for_status r = Ok tt ->
  json r = Some (VDict data) ->
  PyObj.lookup (of_string "filings") data = Some (VDict filings) ->
  PyObj.lookup (of_string "recent") filings = Some (VDict recent) ->
  PyObj.lookup (of_string "form") recent = Some (VList forms) ->
  PyObj.lookup (of_string "filingDate") recent = Some (VList dates) ->
  PyObj.lookup (of_string "accessionNumber") recent = Some (VList accessions) ->
  length dates = length forms ->
  length accessions = length forms ->
  fst (get_8k_filings w cik s) = Ok (spec_form_filter forms dates accessions) /\
  length (spec_form_filter forms dates accessions) = length (filter is_8k forms).
Proof.
  intros Hg Hs Hj Hf Hr Hform Hd Ha Hld Hla. split.
  - rewrite (get_8k_filings_parsed w cik s Hg Hs Hj). unfold try_except.
    now rewrite (select_8k_well_formed _ _ Hf Hr Hform Hd Ha Hld Hla).
  - now apply spec_form_filter_length.
Qed.

Lemma form_filtering_witness :
  fst (get_8k_filings sample_world apple_cik empty_store) =
    Ok [(vstr "2024-05-02", vstr "0000320193-24-000069");
        (vstr "2024-02-01", vstr "0000320193-24-000005")] /\
  length (filter is_8k sample_forms) = 2%nat.
Proof.
  split; [|reflexivity].
  refine (proj1 (form_filtering sample_world apple_cik empty_store
                   (r := ok_response (Some (index_json sample_forms sample_dates
                                              sample_accessions)))
                   (forms := sample_forms) (dates := sample_dates)
                   (accessions := sample_accessions)
                   _ _ _ _ _ _ _ _ _ _));
    reflexivity.
Defined.

Lemma raise_for_status_spec (r : response) :
  raise_for_status r = Ok tt <-> ~ (400 <= status_code r < 600)%Z.
Proof.
  unfold raise_for_status.
  destruct (Z.leb_spec 400 (status_code r)), (Z.ltb_spec (status_code r) 600);
    cbn; split; intros Hs; try reflexivity; try discriminate; lia.
Qed.

Lemma silent_ret {A} (a : A) : silent (ret a).
Proof. now intros s. Qed.

Lemma silent_lift {A} (r : result A) : silent (lift r).
Proof. now intros s. Qed.

Lemma silent_bind {A B} (c : M A) (k : A -> M B) :
  silent c -> (forall a, silent (k a)) -> silent (bind c k).
Proof.
  intros Hc Hk s. unfold bind. specialize (Hc s).
  destruct (c s) as [[a|e] s']; cbn in *; subst s'; [apply Hk | reflexivity].
Qed.

Create HintDb silent.
#[local] Hint Resolve silent_ret silent_lift : silent.

Lemma select_8k_silent (data : value) : silent (select_8k data).
Proof.
  unfold select_8k.
  apply silent_bind; [auto with silent|]. intros has_filings.
  apply silent_bind.
  - destruct has_filings; [|auto with silent].
    apply silent_bind; auto with silent.
  - intros has_recent. destruct has_recent; [|auto with silent].
    repeat (apply silent_bind; [auto with silent|]; intro).
    destruct (indices_8k 0 _); [auto with silent|].
    repeat (apply silent_bind; [auto with silent|]; intro).
    auto with silent.
Qed.

Lemma select_8k_lacks_keys (data : value) (s : Store) :
  lacks_keys data = true -> select_8k data s = (Ok [], s).
Proof.
  unfold lacks_keys. intros H.
  destruct data as [| | | | |l|d]; try discriminate.
  unfold select_8k, bind, lift, ret. cbn [PyObj.py_in PyObj.getitem].
  destruct (PyObj.lookup (of_string "filings") d) as [f|]; [|reflexivity].
  destruct f as [| | | | |l|f]; try discriminate.
  cbn [PyObj.py_in]. now destruct (PyObj.lookup (of_string "recent") f).
Qed.

(** When the key test is false the fetcher falls through to its last
    [return]; when the test raises, so does the body of the [try]. *)
Lemma select_8k_keys_false (data : value) (s : Store) :
  keys_test data = Ok false -> select_8k data s = (Ok [], s).
Proof.
  unfold keys_test, select_8k, bind, lift, ret.
  destruct (PyObj.py_in (of_string "filings") data) as [[|]|e];
    [|reflexivity|discriminate].
  destruct (PyObj.getitem data (of_string "filings")) as [f|e]; [|discriminate].
  now intros ->.
Qed.

Lemma select_8k_keys_raise (data : value) (e : exn) (s : Store) :
  keys_test data = Raise e -> select_8k data s = (Raise e, s).
Proof.
  unfold keys_test, select_8k, bind, lift, ret.
  destruct (PyObj.py_in (of_string "filings") data) as [[|]|e'];
    [|discriminate|now intros [= ->]].
  destruct (PyObj.getitem data (of_string "filings")) as [f|e']; [|now intros [= ->]].
  now intros ->.
Qed.

Lemma lacks_keys_test (data : value) :
  lacks_keys data = true -> keys_test data = Ok false.
Proof.
  unfold lacks_keys, keys_test. destruct data as [| | | | |l|d]; try discriminate.
  cbn [PyObj.py_in PyObj.getitem].
  destruct (PyObj.lookup (of_string "filings") d) as [f|]; [|reflexivity].
  destruct f as [| | | | |l|f]; try discriminate.
  cbn [PyObj.py_in]. now destruct (PyObj.lookup (of_string "recent") f).
Qed.

Lemma logged_logged (s : Store) (a b : list event) :
  logged (logged s a) b = logged s (a ++ b).
Proof. unfold logged. cbn. now rewrite app_assoc. Qed.

Lemma get_8k_filings_total (w : World) (cik : str) (s : Store) :
  exists refs s', get_8k_filings w cik s = (Ok refs, s').
Proof.
  unfold get_8k_filings, try_except.
  match goal with |- context [match ?b with _ => _ end] => destruct b as [[refs|e] s'] end.
  - now exists refs, s'.
  - exists [], (logged s' [EvPrint (MsgError8K cik e)]). reflexivity.
Qed.

(** C7, amended: the index fetcher never raises.  When the request fails
    (the transport raises, the status is one on which [raise_for_status]
    raises, or the body is not JSON) it logs the failure and returns the
    empty list.  When the body is parsed and the test for the 'filings'
    and 'recent' keys does not hold, it returns the empty list as well:
    without any message when the test is false, as it is for an object
    without 'filings' and for one whose 'filings' object has no 'recent';
    with the message of the error when the test itself raises, as it does
    with [TypeError] for a null body and for a null under 'filings'. *)
Theorem index_fetch_failures (w : World) (cik : str) (s : Store) :
  let request := EvGet (search_url cik) USER_AGENT in
  let failed e := (Ok [], logged s [request; EvPrint (MsgError8K cik e)]) in
  (exists refs s', get_8k_filings w cik s = (Ok refs, s')) /\
  (forall e, requests_get w (trace s) (search_url cik) = Raise e ->
     get_8k_filings w cik s = failed e) /\
  (forall r e, requests_get w (trace s) (search_url cik) = Ok r ->
     raise_for_status r = Raise e ->
     get_8k_filings w cik s = failed e) /\
  (forall r, requests_get w (trace s) (search_url cik) = Ok r ->
     raise_for_status r = Ok tt ->
     json r = None ->
     get_8k_filings w cik s = failed JSONDecodeError) /\
  (forall r data, requests_get w (trace s) (search_url cik) = Ok r ->
     raise_for_status r = Ok tt ->
     json r = Some data ->
     lacks_keys data = true ->
     get_8k_filings w cik s = (Ok [], logged s [request])) /\
  (forall r data, requests_get w (trace s) (search_url cik) = Ok r ->
     raise_for_status r = Ok tt ->
     json r = Some data ->
     keys_test data = Ok false ->
     get_8k_filings w cik s = (Ok [], logged s [request])) /\
  (forall r data e, requests_get w (trace s) (search_url cik) = Ok r ->
     raise_for_status r = Ok tt ->
     json r = Some data ->
     keys_test data = Raise e ->
     get_8k_filings w cik s = failed e) /\
  (forall data, lacks_keys data = true -> keys_test data = Ok false) /\
  keys_test VNone = Raise TypeError /\
  keys_test null_filings = Raise TypeError.
Proof.
  intros request failed. split; [apply get_8k_filings_total|].
  assert (Hfail : forall e, (Ok [] : result (list FilingRef),
                             logged (logged s [request]) [EvPrint (MsgError8K cik e)])
                            = failed e)
    by (intros e; unfold failed; now rewrite logged_logged).
  repeat split.
  - intros e Hg. rewrite <- Hfail. now run_request Hg.
  - intros r e Hg Hs. rewrite <- Hfail. run_request Hg. now run_lifted Hs.
  - intros r Hg Hs Hj. rewrite <- Hfail. run_request Hg. run_lifted Hs.
    unfold response_json. now run_lifted Hj.
  - intros r data Hg Hs Hj Hk.
    rewrite (get_8k_filings_parsed w cik s Hg Hs Hj). unfold try_except.
    now rewrite select_8k_lacks_keys.
  - intros r data Hg Hs Hj Hk.
    rewrite (get_8k_filings_parsed w cik s Hg Hs Hj). unfold try_except.
    now rewrite select_8k_keys_false.
  - intros r data e Hg Hs Hj Hk. rewrite <- Hfail.
    rewrite (get_8k_filings_parsed w cik s Hg Hs Hj). unfold try_except.
    now rewrite (select_8k_keys_raise _ _ Hk).
  - apply lacks_keys_test.
Qed.

(** C7 as stated fails: an index response whose body is the empty object
    lacks the 'filings' key; the fetcher returns the empty list and no
    message is printed. *)
Lemma index_fetch_keyless_not_logged :
  lacks_keys (VDict []) = true /\
  get_8k_filings keyless_world apple_cik empty_store =
    (Ok [], logged empty_store [EvGet (search_url apple_cik) USER_AGENT]) /\
  forall m, ~ In (EvPrint m)
                (trace (snd (get_8k_filings keyless_world apple_cik empty_store))).
Proof.
  split; [reflexivity|]. split; [reflexivity|].
  intros m [H|[]]. discriminate H.
Qed.

(** An index response whose body is null: the key test raises, the
    fetcher logs the error and returns the empty list. *)
Example index_fetch_null_logged :
  get_8k_filings null_world apple_cik empty_store =
    (Ok [], logged empty_store [EvGet (search_url apple_cik) USER_AGENT;
                                EvPrint (MsgError8K apple_cik TypeError)]).
Proof. reflexivity. Qed.

(** ** Stores along a run *)

Lemma after_refl (s : Store) : after s s [] [].
Proof. unfold after. now rewrite !app_nil_r. Qed.

Lemma after_logged (s : Store) (events : list event) :
  after s (logged s events) events [].
Proof. unfold after, logged. cbn. now rewrite app_nil_r. Qed.

Lemma after_trans (s s1 s2 : Store) (e1 e2 : list event) (r1 r2 : list ResultRow) :
  after s s1 e1 r1 -> after s1 s2 e2 r2 -> after s s2 (e1 ++ e2) (r1 ++ r2).
Proof.
  unfold after. intros [H1 H1'] [H2 H2']. rewrite H2, H2', H1, H1'.
  now rewrite !app_assoc.
Qed.

Lemma after_append_row (s : Store) (r : ResultRow) :
  after s (snd (append_row r s)) [] [r].
Proof. unfold after, append_row. cbn. now rewrite app_nil_r. Qed.

Lemma analyzed_app (a b : list event) :
  analyzed (a ++ b) = analyzed a ++ analyzed b.
Proof.
  induction a as [|e a IH]; [reflexivity|].
  destruct e as [| |m| |]; cbn; try exact IH.
  destruct m; cbn; try exact IH. now rewrite IH.
Qed.

Lemma requested_app (a b : list event) :
  requested (a ++ b) = requested a ++ requested b.
Proof.
  induction a as [|e a IH]; [reflexivity|].
  destruct e; cbn; try exact IH. now rewrite IH.
Qed.

Lemma quiet_app (a b : list event) : quiet a -> quiet b -> quiet (a ++ b).
Proof.
  unfold quiet. intros [Ha Ha'] [Hb Hb'].
  now rewrite analyzed_app, requested_app, Ha, Ha', Hb, Hb'.
Qed.

(** A loop whose body only appends rows allowed by [P] appends, element by
    element, rows allowed by [P]; an element the loop does not reach adds
    nothing. *)
Lemma for_each_rows {A} (body : A -> M unit) (P : A -> list ResultRow -> Prop) :
  (forall x s, exists res s' events rows,
      body x s = (res, s') /\ after s s' events rows /\ P x rows) ->
  (forall x, P x []) ->
  forall l s, exists res s' events parts,
    for_each body l s = (res, s') /\
    after s s' events (concat parts) /\
    Forall2 P l parts.
Proof.
  intros Hbody Hnil. induction l as [|x l IH]; intros s.
  - exists (Ok tt), s, [], []. split; [reflexivity|]. split; [apply after_refl|constructor].
  - destruct (Hbody x s) as (res & s1 & ev & rows & E & A1 & Px).
    cbn [for_each]. unfold bind. rewrite E.
    destruct res as [[]|e].
    + destruct (IH s1) as (res' & s2 & ev' & parts & E' & A2 & F).
      exists res', s2, (ev ++ ev'), (rows :: parts).
      split; [exact E'|]. split; [exact (after_trans A1 A2)|now constructor].
    + exists (Raise e), s1, ev, (rows :: List.map (fun _ => []) l).
      split; [reflexivity|]. split.
      * cbn [concat].
        replace (concat (List.map (fun _ => []) l)) with (@nil ResultRow)
          by (clear; induction l; cbn; auto).
        now rewrite app_nil_r.
      * constructor; [exact Px|]. clear -Hnil. induction l; cbn; constructor; auto.
Qed.

Lemma for_each_app {A} (body : A -> M unit) (l1 l2 : list A) (s : Store) :
  for_each body (l1 ++ l2) s = (for_each body l1 ;;; for_each body l2) s.
Proof.
  revert s. induction l1 as [|x l1 IH]; intros s; [reflexivity|].
  cbn [app for_each]. unfold bind in *.
  destruct (body x s) as [[u|e] s1]; [apply IH | reflexivity].
Qed.

(** ** Computations that read the events only *)

Lemma blind_ret {A} (a : A) : blind (ret a).
Proof. intros s. unfold ret. cbn. now destruct s. Qed.

Lemma blind_lift {A} (r : result A) : blind (lift r).
Proof. intros s. unfold lift. cbn. now destruct s. Qed.

Lemma blind_emit (e : event) : blind (emit e).
Proof. intros s. reflexivity. Qed.

Lemma blind_http_get (w : World) (url : str) : blind (http_get w url).
Proof. intros s. reflexivity. Qed.

Lemma blind_generate (w : World) (model prompt : str) :
  blind (generate w model prompt).
Proof. intros s. reflexivity. Qed.

Lemma blind_bind {A B} (c : M A) (k : A -> M B) :
  blind c -> (forall a, blind (k a)) -> blind (bind c k).
Proof.
  intros Hc Hk s. unfold bind. rewrite (Hc s).
  destruct (c (bare (trace s))) as [[a|e] s1]; cbn [fst snd]; [|reflexivity].
  rewrite (Hk a s1), (Hk a {| trace := trace s1; results_df := results_df s |}).
  reflexivity.
Qed.

Lemma blind_try_except {A} (body : M A) (handler : exn -> M A) :
  blind body -> (forall e, blind (handler e)) -> blind (try_except body handler).
Proof.
  intros Hb Hh s. unfold try_except. rewrite (Hb s).
  destruct (body (bare (trace s))) as [[a|e] s1]; cbn [fst snd]; [reflexivity|].
  rewrite (Hh e s1), (Hh e {| trace := trace s1; results_df := results_df s |}).
  reflexivity.
Qed.

Create HintDb blind.
#[local] Hint Resolve blind_ret blind_lift blind_emit : blind.

Lemma blind_select_8k (data : value) : blind (select_8k data).
Proof.
  unfold select_8k.
  apply blind_bind; [auto with blind|]. intros has_filings.
  apply blind_bind.
  - destruct has_filings; [|auto with blind].
    apply blind_bind; auto with blind.
  - intros has_recent. destruct has_recent; [|auto with blind].
    repeat (apply blind_bind; [auto with blind|]; intro).
    destruct (indices_8k 0 _); [auto with blind|].
    repeat (apply blind_bind; [auto with blind|]; intro).
    auto with blind.
Qed.

(** ** The driver *)

Section Run.

Variable w : World.

(** The index fetcher returns a list and touches only the trace. *)
Lemma get_8k_filings_after (cik : str) (s : Store) :
  exists refs s' events,
    get_8k_filings w cik s = (Ok refs, s') /\ after s s' events [].
Proof.
  unfold get_8k_filings, try_except, bind at 1, http_get.
  pose proof (after_logged s [EvGet (search_url cik) USER_AGENT]) as H0.
  set (s0 := logged s _) in *.
  assert (Hfail : forall e, exists refs s' events,
             (print (MsgError8K cik e) ;;; ret (@nil FilingRef)) s0 = (Ok refs, s') /\
             after s s' events []).
  { intros e. eexists [], (logged s0 [EvPrint (MsgError8K cik e)]), _.
    split; [reflexivity|].
    apply (after_trans H0 (after_logged s0 _)). }
  destruct (requests_get w (trace s) (search_url cik)) as [r|e]; [|apply Hfail].
  unfold bind at 1, lift at 1.
  destruct (raise_for_status r) as [[]|e]; [|apply Hfail].
  unfold bind at 1, lift at 1.
  destruct (response_json r) as [data|e]; [|apply Hfail].
  pose proof (select_8k_silent data s0) as Hs.
  destruct (select_8k data s0) as [[refs|e] s1]; cbn in Hs; subst s1.
  - eexists refs, s0, _. split; [reflexivity | exact H0].
  - apply Hfail.
Qed.

(** The content fetcher, given an accession number that is a string,
    requests the document and returns; it touches only the trace. *)
Lemma get_filing_content_str (accession cik : str) (s : Store) :
  exists content s' events,
    get_filing_content w (VStr accession) cik s = (Ok content, s') /\
    after s s'
      (EvGet (document_url cik (VNone, VStr accession)) USER_AGENT :: events) [] /\
    quiet events.
Proof.
  unfold get_filing_content, try_except, bind at 1, http_get, document_url.
  cbn [snd].
  set (url := filing_url cik _ accession).
  pose proof (after_logged s [EvGet url USER_AGENT]) as H0.
  set (s0 := logged s _) in *.
  assert (Hfail : forall e, exists content s' events,
             (print (MsgErrorContent accession e) ;;; ret (@None str)) s0
               = (Ok content, s') /\
             after s s' (EvGet url USER_AGENT :: events) [] /\ quiet events).
  { intros e. eexists None, (logged s0 [EvPrint (MsgErrorContent accession e)]), _.
    split; [reflexivity|]. split.
    - apply (after_trans H0 (after_logged s0 _)).
    - now split. }
  destruct (requests_get w (trace s) url) as [r|e]; [|apply Hfail].
  unfold bind at 1, lift at 1.
  destruct (raise_for_status r) as [[]|e]; [|apply Hfail].
  destruct (search_text (text r)); eexists _, s0, []; (split; [reflexivity|]);
    (split; [exact H0 | now split]).
Qed.

Lemma get_filing_content_not_str (v : value) (cik : str) (s : Store) :
  is_str v = false -> get_filing_content w v cik s = (Raise AttributeError, s).
Proof. destruct v; (discriminate || reflexivity). Qed.

(** The extractor returns, touches only the trace, and a record it returns
    has a non-empty name. *)
Lemma extract_product_info_after
    (content : option str) (name tick : str) (s : Store) :
  exists r s' events,
    extract_product_info w content name tick s = (Ok r, s') /\
    after s s' events [] /\ quiet events /\
    forall info, r = Some info -> new_product info <> [].
Proof.
  destruct content as [[|c content]|].
  2: { unfold extract_product_info, try_except, bind, generate.
       set (prompt := build_prompt _ _ _).
       pose proof (after_logged s [EvGenerate MODEL prompt]) as H0.
       set (s0 := logged s _) in *.
       destruct (ollama_generate w (trace s) MODEL prompt) as [reply|e].
       - eexists (parse_llm_response reply), s0, _. split; [reflexivity|].
         split; [exact H0|]. split; [now split|].
         intros info Hi. now apply parse_some_inv in Hi.
       - eexists None, (logged s0 [EvPrint (MsgErrorLLM e)]), _.
         split; [reflexivity|]. split.
         + apply (after_trans H0 (after_logged s0 _)).
         + split; [now split | discriminate]. }
  all: exists None, s, []; split; [reflexivity|]; split; [apply after_refl|];
    split; [now split | discriminate].
Qed.

(** One iteration of the inner loop: it announces the filing, and when the
    accession number is a string it requests the document and completes. *)
Lemma process_filing_after
    (company : CompanyRef) (filing : FilingRef) (s : Store) :
  exists res s' events rows,
    process_filing w company filing s = (res, s') /\
    after s s' (EvPrint (MsgAnalyzing (fst filing)) :: events) rows /\
    filing_rows company filing rows /\
    (is_str (snd filing) = true ->
     res = Ok tt /\
     exists events',
       events = EvGet (document_url (cik_str company) filing) USER_AGENT :: events' /\
       quiet events').
Proof.
  destruct filing as [filing_date accession_number]. cbn [fst snd].
  unfold process_filing, bind at 1, print at 1, emit at 1.
  pose proof (after_logged s [EvPrint (MsgAnalyzing filing_date)]) as H0.
  set (s0 := logged s _) in *.
  destruct (is_str accession_number) eqn:Hstr.
  - destruct accession_number as [| | | |accession| |]; try discriminate.
    destruct (get_filing_content_str accession (cik_str company) s0)
      as (content & s1 & ev1 & E1 & A1 & Q1).
    unfold bind at 1. rewrite E1.
    destruct (extract_product_info_after content (title company) (ticker company) s1)
      as (r & s2 & ev2 & E2 & A2 & Q2 & Hne).
    unfold bind at 1. rewrite E2.
    destruct r as [info|].
    + pose proof (after_append_row s2 (result_row company filing_date info)) as A3.
      unfold append_row in A3. cbn [snd] in A3.
      set (s3 := Build_Store _ _) in A3.
      unfold bind, append_row, print, emit, sleep, ret. fold s3.
      eexists (Ok tt), _, _, [result_row company filing_date info].
      split; [reflexivity|]. split; [|split].
      * exact (after_trans H0 (after_trans A1 (after_trans A2 (after_trans A3
                 (after_trans (after_logged s3 [EvPrint (MsgFound (new_product info))])
                              (after_logged _ [EvSleep 1])))))).
      * right. exists info. split; [now apply Hne | reflexivity].
      * intros _. split; [reflexivity|]. eexists. split; [reflexivity|].
        apply quiet_app; [exact Q1|]. apply quiet_app; [exact Q2|]. now split.
    + unfold bind, sleep, emit, ret.
      eexists (Ok tt), _, _, [].
      split; [reflexivity|]. split; [|split].
      * exact (after_trans H0 (after_trans A1 (after_trans A2
                 (after_logged s2 [EvSleep 1])))).
      * now left.
      * intros _. split; [reflexivity|]. eexists. split; [reflexivity|].
        apply quiet_app; [exact Q1|]. apply quiet_app; [exact Q2|]. now split.
  - unfold bind at 1.
    rewrite (get_filing_content_not_str _ (cik_str company) s0 Hstr).
    eexists (Raise AttributeError), s0, [], [].
    split; [reflexivity|]. split; [exact H0|]. split; [now left | discriminate].
Qed.

(** The inner loop over filings whose accession numbers are strings:
    every filing is announced and its document requested, in order. *)
Lemma for_each_filing_trace (company : CompanyRef) (l : list FilingRef) :
  Forall (fun f => is_str (snd f) = true) l ->
  forall s, exists s' events,
    for_each (process_filing w company) l s = (Ok tt, s') /\
    trace s' = trace s ++ events /\
    analyzed events = List.map fst l /\
    requested events = List.map (document_url (cik_str company)) l.
Proof.
  induction 1 as [|f l Hf Hl IH]; intros s.
  - exists s, []. cbn. now rewrite app_nil_r.
  - destruct (process_filing_after company f s)
      as (res & s1 & ev & rows & E & [At _] & _ & Hs).
    destruct (Hs Hf) as (-> & ev' & -> & Qa & Qr).
    destruct (IH s1) as (s2 & evs & E2 & T2 & A2 & R2).
    exists s2, (EvPrint (MsgAnalyzing (fst f))
                :: EvGet (document_url (cik_str company) f) USER_AGENT :: ev' ++ evs).
    cbn [for_each]. unfold bind. rewrite E, E2. split; [reflexivity|].
    split; [|split].
    + rewrite T2, At. now rewrite <- app_assoc.
    + cbn. now rewrite analyzed_app, Qa, A2.
    + cbn. now rewrite requested_app, Qr, R2.
Qed.

(** C6, amended: when the accession numbers of the first five filings the
    index fetch returned are strings, the company is processed over these
    filings, in the order returned: all of them when there are at most
    five, exactly the first five when there are more. *)
Theorem cap_enforcement
    (company : CompanyRef) (s s1 : Store) (filings : list FilingRef) :
  get_8k_filings w (cik_str company)
    (logged s [EvPrint (MsgProcessing (title company) (cik_str company)
                          (ticker company))]) = (Ok filings, s1) ->
  Forall (fun f => is_str (snd f) = true) (firstn 5 filings) ->
  exists s2 events,
    process_company w company s = (Ok tt, s2) /\
    trace s2 = trace s1 ++ events /\
    analyzed events = List.map fst (firstn 5 filings) /\
    requested events = List.map (document_url (cik_str company)) (firstn 5 filings) /\
    (5 < length filings -> length (analyzed events) = 5) /\
    (length filings <= 5 ->
     analyzed events = List.map fst filings /\
     requested events = List.map (document_url (cik_str company)) filings).
Proof.
  intros Hget Hstr.
  destruct (for_each_filing_trace company Hstr s1) as (s2 & events & E & T & A & R).
  exists s2, events.
  unfold process_company, bind at 1, print, emit. unfold bind at 1. rewrite Hget.
  repeat split; try assumption.
  - intros Hlen. rewrite A, length_map, firstn_length_le; lia.
  - rewrite A. now rewrite firstn_all2.
  - rewrite R. now rewrite firstn_all2.
Qed.

Lemma process_company_rows (company : CompanyRef) (s : Store) :
  exists res s' events rows,
    process_company w company s = (res, s') /\
    after s s' events rows /\ company_rows company rows.
Proof.
  unfold process_company, bind at 1, print, emit.
  pose proof (after_logged s [EvPrint (MsgProcessing (title company)
                                         (cik_str company) (ticker company))]) as H0.
  set (s0 := logged s _) in *.
  destruct (get_8k_filings_after (cik_str company) s0) as (filings & s1 & ev1 & E1 & A1).
  unfold bind at 1. rewrite E1.
  destruct (for_each_rows (process_filing w company) (filing_rows company)) with
    (l := firstn 5 filings) (s := s1) as (res & s2 & ev2 & parts & E2 & A2 & F).
  - intros f s'. destruct (process_filing_after company f s')
      as (res & s'' & ev & rows & E & A & R & _).
    now exists res, s'', (EvPrint (MsgAnalyzing (fst f)) :: ev), rows.
  - intros f. now left.
  - exists res, s2, (([EvPrint (MsgProcessing (title company) (cik_str company)
                                  (ticker company))] ++ ev1) ++ ev2), (concat parts).
    split; [exact E2|]. split.
    + exact (after_trans (after_trans H0 A1) A2).
    + exists (firstn 5 filings), parts. split; [|now split].
      rewrite length_firstn. lia.
Qed.

Lemma companies_loop_rows (companies : list CompanyRef) (s : Store) :
  exists res s' events groups,
    for_each (process_company w) companies s = (res, s') /\
    after s s' events (concat groups) /\
    Forall2 company_rows companies groups.
Proof.
  apply for_each_rows.
  - intros company s'. apply process_company_rows.
  - intros company. exists [], []. split; [cbn; lia|]. split; [constructor|reflexivity].
Qed.

(** *** The table and the discoveries *)

Lemma blind_get_8k_filings (cik : str) : blind (get_8k_filings w cik).
Proof.
  unfold get_8k_filings. apply blind_try_except.
  - apply blind_bind; [apply blind_http_get|]. intros response.
    apply blind_bind; [apply blind_lift|]. intros _.
    apply blind_bind; [apply blind_lift|]. intros data.
    apply blind_select_8k.
  - intros e. apply blind_bind; [apply blind_emit | intros _; apply blind_ret].
Qed.

Lemma blind_get_filing_content (accession_number : value) (cik : str) :
  blind (get_filing_content w accession_number cik).
Proof.
  destruct accession_number; try apply blind_lift.
  unfold get_filing_content. apply blind_try_except.
  - apply blind_bind; [apply blind_http_get|]. intros response.
    apply blind_bind; [apply blind_lift|]. intros _.
    destruct (search_text (text response)); apply blind_ret.
  - intros e. apply blind_bind; [apply blind_emit | intros _; apply blind_ret].
Qed.

Lemma blind_extract_product_info (content : option str) (name tick : str) :
  blind (extract_product_info w content name tick).
Proof.
  destruct content as [[|c content]|]; try apply blind_ret.
  unfold extract_product_info. apply blind_try_except.
  - apply blind_bind; [apply blind_generate | intros reply; apply blind_ret].
  - intros e. apply blind_bind; [apply blind_emit | intros _; apply blind_ret].
Qed.

(** One iteration of the inner loop against the extraction for its
    filing: the events are those of the extraction followed by the closing
    ones, and the table gains the row the discovery calls for. *)
Lemma process_filing_examined
    (company : CompanyRef) (filing : FilingRef) (s : Store) :
  process_filing w company filing s =
  match examine w company filing (trace s) with
  | (Raise e, t1) => (Raise e, {| trace := t1; results_df := results_df s |})
  | (Ok yield, t1) =>
      (Ok tt, {| trace := t1 ++ closing yield;
                 results_df := results_df s
                               ++ rows_of [(company, filing, yield)] |})
  end.
Proof.
  destruct filing as [filing_date accession_number].
  unfold process_filing, examine. cbn [fst snd].
  unfold bind at 1, print at 1, emit at 1.
  set (s0 := logged s [EvPrint (MsgAnalyzing filing_date)]).
  change (bare (trace s ++ [EvPrint (MsgAnalyzing filing_date)]))
    with (bare (trace s0)).
  pose proof (blind_get_filing_content accession_number (cik_str company) s0) as Hg.
  unfold bind. rewrite Hg.
  destruct (get_filing_content w accession_number (cik_str company) (bare (trace s0)))
    as [[content|e] s1]; cbn [fst snd]; [|reflexivity].
  rewrite (blind_extract_product_info content (title company) (ticker company)
             {| trace := trace s1; results_df := results_df s0 |}).
  cbn [trace results_df].
  rewrite (blind_extract_product_info content (title company) (ticker company) s1).
  destruct (extract_product_info w content (title company) (ticker company)
              (bare (trace s1))) as [[[info|]|e] s2]; cbn [fst snd trace];
    [| |reflexivity].
  - unfold append_row, print, sleep, emit, logged, rows_of.
    cbn [trace results_df flat_map fst app]. now rewrite <- app_assoc.
  - unfold ret, sleep, emit, logged, rows_of.
    cbn [trace results_df flat_map fst app closing]. now rewrite app_nil_r.
Qed.

Lemma rows_of_app (a b : list Discovery) :
  rows_of (a ++ b) = rows_of a ++ rows_of b.
Proof. apply flat_map_app. Qed.

Lemma for_each_filing_journal (company : CompanyRef) (filings : list FilingRef) :
  forall s,
    for_each (process_filing w company) filings s =
    let '(journal, res, t) := filings_journal w company filings (trace s) in
    (res, {| trace := t; results_df := results_df s ++ rows_of journal |}).
Proof.
  induction filings as [|filing rest IH]; intros s.
  - cbn. rewrite app_nil_r. now destruct s.
  - cbn [for_each filings_journal]. unfold bind.
    rewrite process_filing_examined.
    destruct (examine w company filing (trace s)) as [[yield|e] t1].
    + rewrite IH. cbn [trace results_df].
      destruct (filings_journal w company rest (t1 ++ closing yield))
        as [[journal res] t2].
      change ((company, filing, yield) :: journal)
        with ([(company, filing, yield)] ++ journal).
      now rewrite rows_of_app, app_assoc.
    + cbn. now rewrite app_nil_r.
Qed.

Lemma for_each_company_journal (companies : list CompanyRef) :
  forall s,
    for_each (process_company w) companies s =
    let '(journal, res, t) := companies_journal w companies (trace s) in
    (res, {| trace := t; results_df := results_df s ++ rows_of journal |}).
Proof.
  induction companies as [|company rest IH]; intros s.
  - cbn. rewrite app_nil_r. now destruct s.
  - cbn [for_each companies_journal]. unfold bind at 1.
    unfold process_company, bind at 1, print, emit. unfold bind at 1.
    set (s0 := logged s _).
    rewrite (blind_get_8k_filings (cik_str company) s0).
    change (bare (trace s ++ _)) with (bare (trace s0)).
    destruct (get_8k_filings w (cik_str company) (bare (trace s0)))
      as [[filings|e] s1]; cbn [fst snd]; [|cbn; now rewrite app_nil_r].
    rewrite for_each_filing_journal. cbn [trace results_df].
    destruct (filings_journal w company (firstn 5 filings) (trace s1))
      as [[journal [[]|e]] t2]; [|reflexivity].
    rewrite IH. cbn [trace results_df].
    destruct (companies_journal w rest t2) as [[journal' res] t3].
    now rewrite rows_of_app, app_assoc.
Qed.

(** A record in a journal has a product name. *)
Lemma examine_named
    (company : CompanyRef) (filing : FilingRef) (t t1 : list event)
    (info : ProductRecord) :
  examine w company filing t = (Ok (Some info), t1) -> new_product info <> [].
Proof.
  unfold examine, bind.
  destruct (get_filing_content w (snd filing) (cik_str company) _)
    as [[content|e] s1]; [|discriminate].
  destruct (extract_product_info_after content (title company) (ticker company) s1)
    as (r & s2 & ev & E & _ & _ & Hne).
  rewrite E. intros [= -> _]. now apply Hne.
Qed.

Lemma filings_journal_named (company : CompanyRef) (filings : list FilingRef) :
  forall t d info,
    In d (fst (fst (filings_journal w company filings t))) ->
    snd d = Some info -> new_product info <> [].
Proof.
  induction filings as [|filing rest IH]; intros t d info; [intros []|].
  cbn [filings_journal].
  destruct (examine w company filing t) as [[yield|e] t1] eqn:E; [|intros []].
  specialize (IH (t1 ++ closing yield) d info).
  destruct (filings_journal w company rest (t1 ++ closing yield))
    as [[journal res] t2].
  cbn [fst snd] in *. intros [<-|Hin] Hd; [|now apply IH].
  cbn [snd] in Hd. subst yield. exact (examine_named _ _ _ E).
Qed.

Lemma companies_journal_named (companies : list CompanyRef) :
  forall t d info,
    In d (fst (fst (companies_journal w companies t))) ->
    snd d = Some info -> new_product info <> [].
Proof.
  induction companies as [|company rest IH]; intros t d info; [intros []|].
  cbn [companies_journal].
  destruct (get_8k_filings w (cik_str company) _) as [[filings|e] s1]; [|intros []].
  pose proof (@filings_journal_named company (firstn 5 filings) (trace s1) d info)
    as Hf.
  destruct (filings_journal w company (firstn 5 filings) (trace s1))
    as [[journal [[]|e]] t2]; cbn [fst snd] in *; [|exact Hf].
  specialize (IH t2 d info).
  destruct (companies_journal w rest t2) as [[journal' res] t3].
  cbn [fst snd] in *. intros Hin. apply in_app_or in Hin as [Hin|Hin]; auto.
Qed.

Lemma in_rows_of (journal : list Discovery) (row : ResultRow) :
  In row (rows_of journal) <->
  exists company filing info,
    In (company, filing, Some info) journal /\
    row = result_row company (fst filing) info.
Proof.
  unfold rows_of. rewrite in_flat_map. split.
  - intros ([[company filing] [info|]] & Hin & Hrow); [|destruct Hrow].
    destruct Hrow as [<-|[]]. now exists company, filing, info.
  - intros (company & filing & info & Hin & ->).
    exists (company, filing, Some info). split; [exact Hin | now left].
Qed.

(** C8: the result table against the extractions that took place.
    - One iteration of the inner loop appends the row of its company and
      filing when the extractor returns a record, whose product name is
      then not empty, and leaves the table as it was otherwise.
    - From any store, the loop over the filings of a company and the loop
      over the companies end with the table they found followed by the
      rows of their discoveries: the (company, filing) pairs they came to,
      in that order, each with the yield of its extraction.  So a row is
      in the table exactly when it was there before or is the row of a
      discovery whose extraction yielded a record, and the rows stand in
      the order of the discoveries.
    - A record in a journal has a product name that is not empty.
    - The table after any further iterations begins with the table before
      them: rows are neither changed nor removed. *)
Theorem result_table_invariant :
  (forall (company : CompanyRef) (filing_date accession_number : value) (s : Store),
     let table := results_df
                    (snd (process_filing w company (filing_date, accession_number) s)) in
     match get_filing_content w accession_number (cik_str company)
             (logged s [EvPrint (MsgAnalyzing filing_date)]) with
     | (Ok content, s1) =>
         match extract_product_info w content (title company) (ticker company) s1 with
         | (Ok (Some info), _) =>
             new_product info <> [] /\
             table = results_df s ++ [result_row company filing_date info]
         | _ => table = results_df s
         end
     | (Raise _, _) => table = results_df s
     end) /\
  (forall (company : CompanyRef) (filings : list FilingRef) (s : Store),
     let '(journal, res, t) := filings_journal w company filings (trace s) in
     for_each (process_filing w company) filings s =
       (res, {| trace := t; results_df := results_df s ++ rows_of journal |})) /\
  (forall (companies : list CompanyRef) (s : Store),
     let '(journal, res, t) := companies_journal w companies (trace s) in
     for_each (process_company w) companies s =
       (res, {| trace := t; results_df := results_df s ++ rows_of journal |})) /\
  (forall (companies : list CompanyRef) (s : Store) (row : ResultRow),
     In row (results_df (snd (for_each (process_company w) companies s))) <->
     In row (results_df s) \/
     exists company filing info,
       In (company, filing, Some info)
          (fst (fst (companies_journal w companies (trace s)))) /\
       row = result_row company (fst filing) info) /\
  (forall (companies : list CompanyRef) (t : list event)
          (company : CompanyRef) (filing : FilingRef) (info : ProductRecord),
     In (company, filing, Some info) (fst (fst (companies_journal w companies t))) ->
     new_product info <> []) /\
  (forall (done rest : list CompanyRef) (s : Store),
     exists rows,
       results_df (snd (for_each (process_company w) (done ++ rest) s)) =
       results_df (snd (for_each (process_company w) done s)) ++ rows).
Proof.
  split; [|split; [|split; [|split; [|split]]]].
  - intros company filing_date accession_number s table. subst table.
    unfold process_filing, bind, print, emit, sleep, ret, append_row.
    set (s0 := logged s _).
    assert (H0 : results_df s0 = results_df s) by reflexivity.
    assert (H1 : forall r s1, get_filing_content w accession_number (cik_str company) s0
                              = (r, s1) -> results_df s1 = results_df s).
    { intros r s1 E. destruct (is_str accession_number) eqn:Hstr.
      - destruct accession_number as [| | | |accession| |]; try discriminate.
        destruct (get_filing_content_str accession (cik_str company) s0)
          as (c & s' & ev & E' & [_ A] & _).
        rewrite E in E'. injection E' as _ <-. now rewrite A, app_nil_r.
      - rewrite get_filing_content_not_str in E by assumption. now injection E as _ <-. }
    destruct (get_filing_content w accession_number (cik_str company) s0)
      as [[content|e] s1] eqn:E1; [|cbn; apply (H1 _ _ eq_refl)].
    specialize (H1 _ _ eq_refl).
    destruct (extract_product_info_after content (title company) (ticker company) s1)
      as (r & s2 & ev & E2 & [_ A2] & _ & Hne).
    rewrite E2. rewrite app_nil_r in A2.
    destruct r as [info|]; cbn.
    + split; [now apply Hne|]. now rewrite A2, H1.
    + now rewrite A2, H1.
  - intros company filings s.
    pose proof (for_each_filing_journal company filings s) as H.
    now destruct (filings_journal w company filings (trace s)) as [[journal res] t].
  - intros companies s.
    pose proof (for_each_company_journal companies s) as H.
    now destruct (companies_journal w companies (trace s)) as [[journal res] t].
  - intros companies s row. rewrite for_each_company_journal.
    destruct (companies_journal w companies (trace s)) as [[journal res] t].
    cbn [fst snd results_df]. now rewrite in_app_iff, in_rows_of.
  - intros companies t company filing info Hin.
    exact (companies_journal_named companies t _ Hin eq_refl).
  - intros done rest s. rewrite for_each_app. unfold bind.
    destruct (for_each (process_company w) done s) as [[[]|e] s1]; cbn [snd].
    + rewrite for_each_company_journal.
      destruct (companies_journal w rest (trace s1)) as [[journal res] t].
      now exists (rows_of journal).
    + exists []. now rewrite app_nil_r.
Qed.

End Run.

Lemma cap_enforcement_witness :
  length (combine seven_dates seven_accessions) = 7 /\
  exists s2 events,
    process_company seven_world apple empty_store = (Ok tt, s2) /\
    trace s2 =
      [EvPrint (MsgProcessing (title apple) (cik_str apple) (ticker apple));
       EvGet (search_url apple_cik) USER_AGENT] ++ events /\
    analyzed events = firstn 5 seven_dates /\
    requested events =
      List.map (document_url apple_cik) (firstn 5 (combine seven_dates seven_accessions)) /\
    (5 < 7 -> length (analyzed events) = 5) /\
    (7 <= 5 ->
     analyzed events = seven_dates /\
     requested events =
       List.map (document_url apple_cik) (combine seven_dates seven_accessions)).
Proof.
  split; [reflexivity|].
  apply (cap_enforcement seven_world apple empty_store
           (s1 := logged (logged empty_store
                            [EvPrint (MsgProcessing (title apple) (cik_str apple)
                                        (ticker apple))])
                         [EvGet (search_url apple_cik) USER_AGENT])
           (filings := combine seven_dates seven_accessions)).
  - reflexivity.
  - repeat constructor.
Defined.

(** C6 as stated fails: the index fetch returns seven filings, the third
    with a number for its accession number.  The driver announces the
    first three filings only and requests the documents of the first two:
    the third stops the loop with an [AttributeError], and the fourth and
    the fifth filing are not processed. *)
Lemma cap_not_reached_on_numeric_accession :
  fst (get_8k_filings seven_world_one_numeric (cik_str apple)
         (logged empty_store
            [EvPrint (MsgProcessing (title apple) (cik_str apple) (ticker apple))])) =
    Ok (combine seven_dates seven_accessions_one_numeric) /\
  length (combine seven_dates seven_accessions_one_numeric) = 7 /\
  fst (process_company seven_world_one_numeric apple empty_store) =
    Raise AttributeError /\
  analyzed (trace (snd (process_company seven_world_one_numeric apple empty_store))) =
    firstn 3 seven_dates /\
  requested (trace (snd (process_company seven_world_one_numeric apple empty_store))) =
    search_url apple_cik
    :: List.map (document_url apple_cik)
         (firstn 2 (combine seven_dates seven_accessions_one_numeric)) /\
  analyzed (trace (snd (process_company seven_world_one_numeric apple empty_store))) <>
    List.map fst (firstn 5 (combine seven_dates seven_accessions_one_numeric)).
Proof.
  repeat split; try (vm_compute; reflexivity). vm_compute. discriminate.
Qed.

(** The loop over one company with two 8-K filings, whose model names a
    product each time: two rows, in the order of the filings. *)
Example loop_sample :
  results_df (snd (for_each (process_company sample_world) [apple] empty_store)) =
    [result_row apple (vstr "2024-05-02")
       {| new_product := of_string "Vision Pro 2"; product_description := [] |};
     result_row apple (vstr "2024-02-01")
       {| new_product := of_string "Vision Pro 2"; product_description := [] |}].
Proof. vm_compute. reflexivity. Qed.

(** An accession number that is not a string stops the loop: the call of
    [replace] stands outside the [try] of [get_filing_content], so the
    error leaves the loop over the companies. *)
Example loop_numeric_accession :
  for_each (process_company numeric_world) [apple] empty_store =
    (Raise AttributeError,
     logged empty_store
       [EvPrint (MsgProcessing (title apple) (cik_str apple) (ticker apple));
        EvGet (search_url apple_cik) USER_AGENT;
        EvPrint (MsgAnalyzing (vstr "2024-05-02"))]).
Proof. vm_compute. reflexivity. Qed.

(** ** The glyph normalization *)

Lemma char_eqb_eq (a b : char) : char_eqb a b = true <-> a = b.
Proof. apply N.eqb_eq. Qed.

Lemma char_eqb_sym (a b : char) : char_eqb a b = char_eqb b a.
Proof. apply N.eqb_sym. Qed.

Lemma replace_go_skip (old new : str) (s : str) :
  forall k, replace_go old new k s = replace_go old new 0 (skipn k s).
Proof.
  induction s as [|c s IH]; intros k.
  - now destruct k.
  - destruct k as [|k]; [reflexivity|]. cbn [replace_go skipn]. apply IH.
Qed.

(** Replacing one character by another is a [map]. *)
Lemma replace_char (c d : char) (s : str) :
  replace [c] [d] s = List.map (fun x => if char_eqb x c then d else x) s.
Proof.
  unfold replace. induction s as [|x s IH]; [reflexivity|].
  cbn [replace_go starts_with List.map length Nat.sub app].
  rewrite (char_eqb_sym c x). destruct s; rewrite andb_true_r;
    destruct (char_eqb x c); cbn [app]; now rewrite <- IH.
Qed.

(** The last replacement of the chain, unfolded at the head of the text. *)
Lemma replace_boxed_cons (x : char) (s : str) :
  unbox (x :: s) =
  if starts_with BOXED (x :: s)
  then SPACE :: unbox (skipn 2 s)
  else x :: unbox s.
Proof.
  unfold unbox, replace, BOXED. cbn [replace_go].
  destruct (starts_with _ (x :: s)); [|reflexivity].
  cbn [length Nat.sub app]. now rewrite replace_go_skip.
Qed.

Lemma replace_glyphs_map (t : str) :
  replace_glyphs t = unbox (List.map to_space t).
Proof.
  unfold replace_glyphs, unbox, BOXED. rewrite !replace_char, !map_map.
  f_equal. apply map_ext. intros c. unfold to_space.
  destruct (char_eqb c NBSP) eqn:E1; cbn [orb].
  { reflexivity. }
  destruct (char_eqb c THIN_SPACE) eqn:E2; cbn [orb].
  { reflexivity. }
  destruct (char_eqb c EN_SPACE) eqn:E3; cbn [orb].
  { reflexivity. }
  reflexivity.
Qed.

Lemma contains_cons (p : str) (x : char) (s : str) :
  contains p (x :: s) = starts_with p (x :: s) || contains p s.
Proof.
  unfold contains. cbn [index_of].
  destruct (starts_with p (x :: s)); [reflexivity|].
  now destruct (index_of p s).
Qed.

Lemma starts_with_boxed (x : char) (s : str) :
  starts_with BOXED (x :: s) = true <->
  x = SPACE /\ exists r, s = BALLOT_BOX :: SPACE :: r.
Proof.
  unfold BOXED. split.
  - destruct s as [|y [|z r]]; cbn [starts_with]; rewrite ?andb_false_r;
      try discriminate.
    rewrite andb_true_r, !andb_true_iff, !char_eqb_eq.
    intros (<- & <- & <-). split; [reflexivity|]. now exists r.
  - intros (-> & r & ->). reflexivity.
Qed.

(** A text without " [] " is left as it is. *)
Lemma replace_boxed_absent (v : str) :
  contains BOXED v = false -> unbox v = v.
Proof.
  induction v as [|x v IH]; [reflexivity|].
  rewrite contains_cons, orb_false_iff. intros [Hs Hc].
  rewrite replace_boxed_cons, Hs. now rewrite IH.
Qed.

(** The replacement keeps the first character. *)
Lemma replace_boxed_head (u : str) :
  hd_error (unbox u) = hd_error u.
Proof.
  destruct u as [|x u]; [reflexivity|].
  rewrite replace_boxed_cons.
  destruct (starts_with BOXED (x :: u)) eqn:E; [|reflexivity].
  apply starts_with_boxed in E as [-> _]. reflexivity.
Qed.

Lemma starts_with_box_pair (r : str) :
  starts_with BOX_PAIR (BALLOT_BOX :: SPACE :: BALLOT_BOX :: r) = true.
Proof. reflexivity. Qed.

(** Without "[] []" in the text, one pass leaves no " [] " behind. *)
Lemma replace_boxed_complete (n : nat) :
  forall u : str,
    length u <= n ->
    contains BOX_PAIR u = false ->
    contains BOXED (unbox u) = false.
Proof.
  induction n as [|n IH]; intros u Hlen Hfree.
  - destruct u; [reflexivity | cbn in Hlen; lia].
  - destruct u as [|x u]; [reflexivity|].
    cbn [length] in Hlen.
    rewrite contains_cons, orb_false_iff in Hfree. destruct Hfree as [_ Hfree].
    rewrite replace_boxed_cons.
    destruct (starts_with BOXED (x :: u)) eqn:E.
    + apply starts_with_boxed in E as (-> & r & ->). cbn [skipn].
      rewrite !contains_cons, !orb_false_iff in Hfree.
      destruct Hfree as (Hb & _ & Hr).
      rewrite contains_cons, orb_false_iff. split.
      * pose proof (replace_boxed_head r) as Hh.
        destruct (unbox r) as [|y v]; [reflexivity|].
        destruct r as [|y' r']; [discriminate|]. injection Hh as ->.
        destruct (starts_with BOXED (SPACE :: y' :: v)) eqn:E'; [|reflexivity].
        apply starts_with_boxed in E' as (_ & r'' & E'). injection E' as -> _.
        now rewrite starts_with_box_pair in Hb.
      * apply IH; [cbn [length] in Hlen; lia | exact Hr].
    + rewrite contains_cons, orb_false_iff. split.
      * destruct (starts_with BOXED (x :: unbox u)) eqn:E';
          [|reflexivity].
        apply starts_with_boxed in E' as (-> & v & Hv).
        pose proof (replace_boxed_head u) as Hh. rewrite Hv in Hh.
        destruct u as [|y u]; [discriminate|]. injection Hh as <-.
        rewrite replace_boxed_cons in Hv. cbn [starts_with BOXED] in Hv.
        change (char_eqb SPACE BALLOT_BOX) with false in Hv. cbn [andb] in Hv.
        injection Hv as Hv.
        pose proof (replace_boxed_head u) as Hh. rewrite Hv in Hh.
        destruct u as [|z u]; [discriminate|]. injection Hh as <-.
        discriminate E.
      * apply IH; [lia | exact Hfree].
Qed.

Lemma to_space_fixed (c : char) : to_space (to_space c) = to_space c.
Proof.
  unfold to_space.
  destruct (char_eqb c NBSP || char_eqb c THIN_SPACE || char_eqb c EN_SPACE
            || char_eqb c EM_SPACE) eqn:E; [reflexivity | now rewrite E].
Qed.

Lemma to_space_box (c : char) :
  char_eqb BALLOT_BOX (to_space c) = char_eqb c BALLOT_BOX.
Proof.
  rewrite char_eqb_sym. unfold to_space.
  destruct (char_eqb c NBSP) eqn:E1;
    [apply char_eqb_eq in E1 as ->; reflexivity|].
  destruct (char_eqb c THIN_SPACE) eqn:E2;
    [apply char_eqb_eq in E2 as ->; reflexivity|].
  destruct (char_eqb c EN_SPACE) eqn:E3;
    [apply char_eqb_eq in E3 as ->; reflexivity|].
  destruct (char_eqb c EM_SPACE) eqn:E4;
    [apply char_eqb_eq in E4 as ->; reflexivity|].
  reflexivity.
Qed.

(** A replacement brings in no character besides those of [new]. *)
Lemma replace_go_forall (P : char -> Prop) (old new : str) (s : str) :
  Forall P new -> Forall P s -> forall k, Forall P (replace_go old new k s).
Proof.
  intros Hnew. induction 1 as [|c s Hc Hs IH]; intros k; [constructor|].
  cbn [replace_go]. destruct k as [|k]; [|apply IH].
  destruct (starts_with old (c :: s)).
  - apply Forall_app. split; [exact Hnew | apply IH].
  - constructor; [exact Hc | apply IH].
Qed.

Lemma unbox_spaced (u : str) :
  List.map to_space (unbox (List.map to_space u)) = unbox (List.map to_space u).
Proof.
  assert (H : Forall (fun c => to_space c = c) (unbox (List.map to_space u))).
  { apply replace_go_forall.
    - now repeat constructor.
    - apply Forall_forall. intros c Hc. apply in_map_iff in Hc as (x & <- & _).
      apply to_space_fixed. }
  induction H as [|c v Hc Hv IH]; [reflexivity|].
  cbn [List.map]. now rewrite Hc, IH.
Qed.

Lemma box_pair_free_spaced (t : str) :
  box_pair_free t = true -> contains BOX_PAIR (List.map to_space t) = false.
Proof.
  induction t as [|a rest IH]; [reflexivity|].
  cbn [box_pair_free List.map]. rewrite andb_true_iff. intros [Hp Hrest].
  rewrite contains_cons, (IH Hrest), orb_false_r.
  destruct rest as [|b [|c r]]; cbn [List.map].
  - unfold BOX_PAIR. cbn [starts_with]. now rewrite !andb_false_r.
  - unfold BOX_PAIR. cbn [starts_with]. now rewrite !andb_false_r.
  - unfold BOX_PAIR. cbn [starts_with].
    rewrite !to_space_box, andb_true_r, (char_eqb_sym SPACE).
    fold (space_like b). rewrite andb_assoc.
    now apply negb_true_iff in Hp.
Qed.

Lemma replace_glyphs_idempotent (t : str) :
  box_pair_free t = true ->
  replace_glyphs (replace_glyphs t) = replace_glyphs t.
Proof.
  intros H. rewrite !replace_glyphs_map, unbox_spaced.
  apply replace_boxed_absent.
  apply (@replace_boxed_complete (length (List.map to_space t))); [lia|].
  now apply box_pair_free_spaced.
Qed.

(** A second normalization gives the same text as the first when no two
    ballot boxes of the stripped text stand with exactly one space-like
    character between them, and the markup stripper leaves the normalized
    text as it is (as it does for text without markup). *)
Theorem normalization_idempotent_without_box_pairs
    (w : World) (html_content : str) :
  box_pair_free (soup_get_text w html_content) = true ->
  soup_get_text w (extract_section w html_content) = extract_section w html_content ->
  extract_section w (extract_section w html_content) = extract_section w html_content.
Proof.
  intros Hfree Hsoup. unfold extract_section at 1. rewrite Hsoup.
  unfold extract_section. now apply replace_glyphs_idempotent.
Qed.

Lemma normalization_idempotent_without_box_pairs_witness :
  extract_section sample_world one_box = of_string "a b" /\
  extract_section sample_world (extract_section sample_world one_box) =
    extract_section sample_world one_box.
Proof.
  split; [reflexivity|].
  apply (normalization_idempotent_without_box_pairs sample_world one_box);
    reflexivity.
Defined.

(** C9: the normalization evaluated on "a [] [] b", a text without markup
    in which two ballot boxes share the space between them.  The last
    [replace] takes the occurrences of space-box-space from left to right
    without overlap, so the first normalization removes one box and leaves
    "a [] b", in which the other box stands between two spaces; the second
    normalization removes it and gives "a b".  The second pass changes the
    text. *)
Lemma normalization_not_idempotent :
  replace_glyphs two_boxes = of_string "a " ++ [BALLOT_BOX] ++ of_string " b" /\
  replace_glyphs (replace_glyphs two_boxes) = of_string "a b" /\
  soup_get_text sample_world two_boxes = two_boxes /\
  extract_section sample_world two_boxes =
    of_string "a " ++ [BALLOT_BOX] ++ of_string " b" /\
  extract_section sample_world (extract_section sample_world two_boxes) =
    of_string "a b" /\
  extract_section sample_world (extract_section sample_world two_boxes) <>
    extract_section sample_world two_boxes.
Proof.
  repeat split; try reflexivity. discriminate.
Qed.

(** * Further properties *)

(** ** Finding a substring *)

Lemma starts_with_prefix (sub s : str) :
  starts_with sub s = true <-> exists rest, s = sub ++ rest.
Proof.
  revert s. induction sub as [|x sub IH]; intros s.
  - split; [intros _; now exists s | reflexivity].
  - destruct s as [|y s]; cbn [starts_with].
    + split; [discriminate | intros [rest H]; discriminate].
    + rewrite andb_true_iff, char_eqb_eq, IH. split.
      * intros [-> [rest ->]]. now exists rest.
      * intros [rest H]. injection H as -> ->. split; [reflexivity | now exists rest].
Qed.

(** Where [index_of] finds [sub], [sub] stands, and nowhere before. *)
Lemma index_of_some (sub s : str) :
  forall i, index_of sub s = Some i ->
    s = firstn i s ++ sub ++ skipn (i + length sub) s /\
    forall j, j < i -> starts_with sub (skipn j s) = false.
Proof.
  induction s as [|x s IH]; intros i; cbn [index_of].
  - destruct (starts_with sub []) eqn:E; [|discriminate].
    intros H. injection H as <-. split; [|lia].
    apply starts_with_prefix in E as [rest E]. cbn [firstn app plus].
    destruct sub; [reflexivity | discriminate].
  - destruct (starts_with sub (x :: s)) eqn:E.
    + intros H. injection H as <-. split; [|lia].
      apply starts_with_prefix in E as [rest E]. cbn [firstn app plus].
      rewrite E at 1. f_equal. rewrite E.
      now rewrite skipn_app, skipn_all, Nat.sub_diag.
    + destruct (index_of sub s) as [k|] eqn:Ek; [|discriminate].
      intros H. injection H as <-. destruct (IH k eq_refl) as [Hs Hf]. split.
      * cbn [firstn skipn plus app]. now rewrite <- Hs.
      * intros [|j] Hj; [exact E|]. cbn [skipn]. apply Hf. lia.
Qed.

Lemma index_of_none (sub s : str) :
  index_of sub s = None -> forall pre post, s <> pre ++ sub ++ post.
Proof.
  induction s as [|x s IH]; cbn [index_of].
  - destruct (starts_with sub []) eqn:E; [discriminate|]. intros _ pre post H.
    destruct pre; [|discriminate]. cbn in H.
    assert (starts_with sub [] = true) by (apply starts_with_prefix; now exists post).
    congruence.
  - destruct (starts_with sub (x :: s)) eqn:E; [discriminate|].
    destruct (index_of sub s) eqn:Ek; [discriminate|]. intros _ pre post H.
    destruct pre as [|y pre].
    + assert (starts_with sub (x :: s) = true)
        by (apply starts_with_prefix; now exists post).
      congruence.
    + injection H as _ H. now apply (IH eq_refl pre post).
Qed.

(** An occurrence of [sub] is found, at or before the place it stands. *)
Lemma index_of_occurrence (sub pre post : str) :
  exists i, index_of sub (pre ++ sub ++ post) = Some i /\ i <= length pre.
Proof.
  induction pre as [|x pre IH].
  - exists 0. split; [|cbn; lia]. cbn [app].
    assert (E : starts_with sub (sub ++ post) = true)
      by (apply starts_with_prefix; now exists post).
    destruct (sub ++ post); cbn [index_of]; now rewrite E.
  - destruct IH as (i & Hi & Hle). cbn [app index_of].
    destruct (starts_with sub (x :: pre ++ sub ++ post)).
    + exists 0. split; [reflexivity | lia].
    + exists (S i). rewrite Hi. split; [reflexivity | cbn; lia].
Qed.

(** [sub in s] holds exactly when [sub] stands somewhere in [s]. *)
Lemma contains_spec (sub s : str) :
  contains sub s = true <-> exists pre post, s = pre ++ sub ++ post.
Proof.
  unfold contains. split.
  - destruct (index_of sub s) as [i|] eqn:E; [|discriminate]. intros _.
    apply index_of_some in E as [E _]. eauto.
  - intros (pre & post & ->).
    destruct (index_of_occurrence sub pre post) as (i & -> & _). reflexivity.
Qed.

(** No occurrence of [sub] lies before the one [index_of] finds. *)
Lemma index_of_prefix_free (sub s : str) (i : nat) :
  index_of sub s = Some i -> sub <> [] -> contains sub (firstn i s) = false.
Proof.
  intros Hi Hsub. destruct (contains sub (firstn i s)) eqn:E; [|reflexivity].
  apply contains_spec in E as (a & b & E).
  apply index_of_some in Hi as [Hs Hfirst].
  assert (Hlen : length a < i).
  { pose proof (firstn_le_length i s) as Hl. rewrite E, !length_app in Hl.
    destruct sub; [congruence | cbn in Hl; lia]. }
  specialize (Hfirst (length a) Hlen).
  rewrite Hs, E, <- !app_assoc in Hfirst.
  rewrite skipn_app, skipn_all, Nat.sub_diag in Hfirst. cbn [skipn app] in Hfirst.
  assert (starts_with sub (sub ++ b ++ sub ++ skipn (i + length sub) s) = true)
    by (apply starts_with_prefix; eauto).
  congruence.
Qed.

(** ** The primary-document segment of a filing *)

(** X1: the search for the segment between the tags.  When it succeeds the
    text is the segment between an opening and a closing tag, the segment
    holds no closing tag and no opening tag stands before the one found;
    it fails exactly when the text holds no opening tag followed by a
    closing tag. *)
Theorem search_text_segment (content : str) :
  (forall body, search_text content = Some body ->
     exists pre post,
       content = pre ++ TEXT_OPEN ++ body ++ TEXT_CLOSE ++ post /\
       contains TEXT_OPEN pre = false /\
       contains TEXT_CLOSE body = false) /\
  (search_text content = None <->
     forall pre body post,
       content <> pre ++ TEXT_OPEN ++ body ++ TEXT_CLOSE ++ post).
Proof.
  assert (Hsome : forall body, search_text content = Some body ->
     exists pre post,
       content = pre ++ TEXT_OPEN ++ body ++ TEXT_CLOSE ++ post /\
       contains TEXT_OPEN pre = false /\
       contains TEXT_CLOSE body = false).
  { intros body. unfold search_text. fold TEXT_OPEN TEXT_CLOSE.
    destruct (index_of TEXT_OPEN content) as [i|] eqn:Ei; [|discriminate].
    destruct (index_of TEXT_CLOSE (skipn (i + 6) content)) as [j|] eqn:Ej;
      [|discriminate].
    intros H. injection H as <-.
    exists (firstn i content),
           (skipn (j + length TEXT_CLOSE) (skipn (i + 6) content)).
    split; [|split].
    - apply index_of_some in Ei as [Ei _]. apply index_of_some in Ej as [Ej _].
      rewrite <- Ej. exact Ei.
    - eapply index_of_prefix_free; [exact Ei | discriminate].
    - eapply index_of_prefix_free; [exact Ej | discriminate]. }
  split; [exact Hsome|]. split.
  - unfold search_text. fold TEXT_OPEN TEXT_CLOSE.
    intros Hnone pre body post Hc.
    destruct (index_of_occurrence TEXT_OPEN pre (body ++ TEXT_CLOSE ++ post))
      as (i & Hi & Hle).
    rewrite <- Hc in Hi. rewrite Hi in Hnone.
    destruct (index_of TEXT_CLOSE (skipn (i + 6) content)) eqn:Ej; [discriminate|].
    apply (@index_of_none _ _ Ej (skipn (i + 6) (pre ++ TEXT_OPEN) ++ body) post).
    rewrite Hc, (app_assoc pre), skipn_app, <- app_assoc. f_equal.
    replace (i + 6 - length (pre ++ TEXT_OPEN)) with 0; [reflexivity|].
    rewrite length_app. cbn. lia.
  - intros Hno. destruct (search_text content) as [body|] eqn:E; [|reflexivity].
    destruct (Hsome body eq_refl) as (pre & post & Hc & _). now apply Hno in Hc.
Qed.

(** ** What the normalization leaves behind *)

Lemma is_glyph_to_space (c : char) : is_glyph (to_space c) = false.
Proof.
  unfold to_space. fold (is_glyph c).
  destruct (is_glyph c) eqn:E; [reflexivity | exact E].
Qed.

Lemma to_space_plain (c : char) : is_glyph c = false -> to_space c = c.
Proof. unfold to_space. fold (is_glyph c). now intros ->. Qed.

Lemma map_to_space_plain (t : str) :
  Forall (fun c => is_glyph c = false) t -> List.map to_space t = t.
Proof.
  induction 1 as [|c t Hc Ht IH]; [reflexivity|].
  cbn [List.map]. now rewrite to_space_plain, IH.
Qed.

(** A replacement by a text no longer than the text replaced does not
    lengthen the whole. *)
Lemma replace_go_length (old new : str) (s : str) :
  length new <= length old ->
  forall k, length (replace_go old new k s) + Nat.min k (length s) <= length s.
Proof.
  intros Hnew. induction s as [|c s IH]; intros k; [cbn; lia|].
  cbn [replace_go]. destruct k as [|k].
  - destruct (starts_with old (c :: s)) eqn:E.
    + apply starts_with_prefix in E as [rest E].
      assert (Hlen : length old <= S (length s)).
      { change (S (length s)) with (length (c :: s)). rewrite E, length_app. lia. }
      specialize (IH (length old - 1)). rewrite length_app. cbn [length]. lia.
    + specialize (IH 0). cbn [length]. lia.
  - specialize (IH k). cbn [length]. lia.
Qed.

Lemma unbox_length (u : str) : length (unbox u) <= length u.
Proof.
  pose proof (@replace_go_length BOXED [SPACE] u) as H.
  specialize (H ltac:(cbn; lia) 0). unfold unbox, replace, BOXED in *. lia.
Qed.

Lemma unbox_shrinks (u : str) :
  contains BOXED u = true -> length (unbox u) < length u.
Proof.
  induction u as [|x u IH]; [discriminate|].
  rewrite contains_cons, replace_boxed_cons.
  destruct (starts_with BOXED (x :: u)) eqn:E.
  - intros _. apply starts_with_boxed in E as (-> & r & ->).
    cbn [skipn length]. pose proof (unbox_length r). lia.
  - cbn [orb length]. intros H. specialize (IH H). lia.
Qed.

Lemma replace_glyphs_plain (t : str) :
  Forall (fun c => is_glyph (c) = false) (replace_glyphs t).
Proof.
  rewrite replace_glyphs_map. apply replace_go_forall.
  - now repeat constructor.
  - apply Forall_forall. intros c Hc. apply in_map_iff in Hc as (x & <- & _).
    apply is_glyph_to_space.
Qed.

(** X2: the normalized text holds none of the four whitespace glyphs and
    is no longer than the text stripped of its markup. *)
Theorem extract_section_plain (w : World) (html_content : str) :
  Forall (fun c => c <> NBSP /\ c <> THIN_SPACE /\ c <> EN_SPACE /\ c <> EM_SPACE)
    (extract_section w html_content) /\
  length (extract_section w html_content) <= length (soup_get_text w html_content).
Proof.
  unfold extract_section. split.
  - eapply Forall_impl; [|apply replace_glyphs_plain].
    intros c Hc. unfold is_glyph in Hc.
    rewrite !orb_false_iff in Hc. destruct Hc as (((H1 & H2) & H3) & H4).
    repeat split; intros ->; discriminate.
  - rewrite replace_glyphs_map.
    etransitivity; [apply unbox_length|]. now rewrite length_map.
Qed.

(** X3: the glyph replacement leaves a text as it is exactly when the
    text holds none of the four whitespace glyphs and no ballot box between
    two spaces. *)
Theorem replace_glyphs_fixed_point (t : str) :
  replace_glyphs t = t <->
  Forall (fun c => is_glyph c = false) t /\ contains BOXED t = false.
Proof.
  split.
  - intros H.
    assert (Hp : Forall (fun c => is_glyph c = false) t)
      by (rewrite <- H; apply replace_glyphs_plain).
    split; [exact Hp|].
    rewrite replace_glyphs_map, map_to_space_plain in H by exact Hp.
    destruct (contains BOXED t) eqn:E; [|reflexivity].
    apply unbox_shrinks in E. rewrite H in E. lia.
  - intros [Hp Hb]. rewrite replace_glyphs_map, map_to_space_plain by exact Hp.
    now apply replace_boxed_absent.
Qed.

(** ** Stripping *)

Lemma lstrip_forall (P : char -> Prop) (s : str) :
  Forall P s -> Forall P (lstrip s).
Proof.
  induction 1 as [|c s Hc Hs IH]; [constructor|].
  cbn [lstrip]. destruct (isspace c); [exact IH | now constructor].
Qed.

Lemma strip_forall (P : char -> Prop) (s : str) :
  Forall P s -> Forall P (strip s).
Proof.
  intros H. unfold strip, rstrip.
  apply Forall_rev, lstrip_forall, Forall_rev, lstrip_forall, H.
Qed.

Lemma lstrip_idem (s : str) : lstrip (lstrip s) = lstrip s.
Proof.
  induction s as [|c s IH]; [reflexivity|].
  cbn [lstrip]. destruct (isspace c) eqn:E; [exact IH|].
  cbn [lstrip]. now rewrite E.
Qed.

Lemma lstrip_snoc (a : str) (c : char) :
  isspace c = false -> lstrip (a ++ [c]) = lstrip a ++ [c].
Proof.
  intros Hc. induction a as [|x a IH]; cbn [app lstrip].
  - now rewrite Hc.
  - destruct (isspace x); [exact IH | reflexivity].
Qed.

Lemma rstrip_cons (c : char) (r : str) :
  isspace c = false -> rstrip (c :: r) = c :: rstrip r.
Proof.
  intros Hc. unfold rstrip. cbn [rev].
  now rewrite lstrip_snoc, rev_app_distr by exact Hc.
Qed.

(** Stripping a stripped text changes nothing. *)
Lemma strip_idem (s : str) : strip (strip s) = strip s.
Proof.
  unfold strip.
  assert (H : lstrip (rstrip (lstrip s)) = rstrip (lstrip s)).
  { destruct (lstrip s) as [|c r] eqn:E; [reflexivity|].
    assert (Hc : isspace c = false).
    { pose proof (lstrip_idem s) as Hi. rewrite E in Hi. cbn [lstrip] in Hi.
      destruct (isspace c); [|reflexivity].
      exfalso. assert (Hl : length (lstrip r) <= length r).
      { clear. induction r as [|x r IH]; cbn [lstrip]; [lia|].
        destruct (isspace x); cbn [length]; lia. }
      rewrite Hi in Hl. cbn in Hl. lia. }
    rewrite rstrip_cons by exact Hc. cbn [lstrip]. now rewrite Hc. }
  rewrite H. unfold rstrip. now rewrite rev_involutive, lstrip_idem.
Qed.

(** ** Lines and fields *)

Lemma starts_with_length (sub s : str) :
  starts_with sub s = true -> length sub <= length s.
Proof.
  intros H. apply starts_with_prefix in H as [rest ->]. rewrite length_app. lia.
Qed.

Lemma index_of_bound (sub s : str) :
  forall i, index_of sub s = Some i -> i + length sub <= length s.
Proof.
  induction s as [|x s IH]; intros i; cbn [index_of].
  - destruct (starts_with sub []) eqn:E; [|discriminate].
    intros H. injection H as <-. apply starts_with_length in E. lia.
  - destruct (starts_with sub (x :: s)) eqn:E.
    + intros H. injection H as <-. apply starts_with_length in E. lia.
    + destruct (index_of sub s) as [k|]; [|discriminate].
      intros H. injection H as <-. specialize (IH k eq_refl). cbn [length]. lia.
Qed.

Lemma index_of_char_some (c : char) (s : str) :
  forall k, index_of [c] s = Some k -> Forall (fun x => x <> c) (firstn k s).
Proof.
  induction s as [|x s IH]; intros k; cbn [index_of starts_with]; [discriminate|].
  rewrite andb_true_r.
  destruct (char_eqb c x) eqn:E.
  - intros H. injection H as <-. constructor.
  - destruct (index_of [c] s) as [j|]; [|discriminate].
    intros H. injection H as <-. cbn [firstn]. constructor; [|now apply IH].
    intros ->. now rewrite (proj2 (char_eqb_eq c c) eq_refl) in E.
Qed.

Lemma index_of_char_none (c : char) (s : str) :
  index_of [c] s = None -> Forall (fun x => x <> c) s.
Proof.
  induction s as [|x s IH]; cbn [index_of starts_with]; [constructor|].
  rewrite andb_true_r.
  destruct (char_eqb c x) eqn:E; [discriminate|].
  destruct (index_of [c] s); [discriminate|]. intros _.
  constructor; [|now apply IH].
  intros ->. now rewrite (proj2 (char_eqb_eq c c) eq_refl) in E.
Qed.

Lemma first_line_single (s : str) : Forall (fun x => x <> NL) (first_line s).
Proof.
  unfold first_line. destruct (index_of [NL] s) eqn:E.
  - now apply index_of_char_some.
  - now apply index_of_char_none.
Qed.

(** The field after an anchor, in terms of lists: the first line of what
    follows the first occurrence of the anchor, stripped. *)
Lemma field_after_spec (anchor reply : str) (i : nat) :
  index_of anchor reply = Some i ->
  field_after anchor reply =
    strip (first_line (skipn (i + length anchor) reply)).
Proof.
  intros Hi. pose proof (index_of_bound _ _ Hi) as Hb.
  unfold field_after, find, first_line.
  assert (H0 : clip (len reply) 0 = 0) by (apply clip_zero; unfold len; lia).
  rewrite H0. cbn [skipn]. rewrite Hi.
  destruct (Z.ltb_spec (len reply) 0) as [Hneg|_]; [unfold len in Hneg; lia|].
  set (n := i + length anchor) in *.
  replace (Z.of_nat (0 + i) + len anchor)%Z with (Z.of_nat n)
    by (unfold len, n; lia).
  assert (Hn : clip (len reply) (Z.of_nat n) = n).
  { unfold clip, len. destruct (Z.ltb_spec (Z.of_nat n) 0); lia. }
  rewrite Hn.
  destruct (Z.ltb_spec (len reply) (Z.of_nat n)) as [Hlt|_];
    [unfold len in Hlt; lia|].
  destruct (index_of [NL] (skipn n reply)) as [k|] eqn:Ek.
  - pose proof (index_of_bound _ _ Ek) as Hk. rewrite length_skipn in Hk.
    cbn [length] in Hk.
    destruct (Z.eqb_spec (Z.of_nat (n + k)) (-1)) as [Hm|_]; [lia|].
    unfold slice. rewrite Hn.
    assert (Hnk : clip (len reply) (Z.of_nat (n + k)) = n + k).
    { unfold clip, len. destruct (Z.ltb_spec (Z.of_nat (n + k)) 0); lia. }
    rewrite Hnk. now replace (n + k - n) with k by lia.
  - rewrite Z.eqb_refl. unfold slice. rewrite Hn.
    assert (Hl : clip (len reply) (len reply) = length reply).
    { unfold clip, len. destruct (Z.ltb_spec (Z.of_nat (length reply)) 0); lia. }
    rewrite Hl. rewrite firstn_all2; [reflexivity|]. rewrite length_skipn. lia.
Qed.

Lemma contains_index (sub s : str) :
  contains sub s = true -> exists i, index_of sub s = Some i.
Proof.
  unfold contains. destruct (index_of sub s) as [i|]; [eauto | discriminate].
Qed.

Lemma field_after_single_line (anchor reply : str) :
  contains anchor reply = true ->
  Forall (fun x => x <> NL) (field_after anchor reply) /\
  strip (field_after anchor reply) = field_after anchor reply.
Proof.
  intros H. apply contains_index in H as [i Hi].
  rewrite (field_after_spec _ _ Hi). split.
  - apply strip_forall, first_line_single.
  - apply strip_idem.
Qed.

Lemma cap_description_bound (d : str) : (len (cap_description d) <= 180)%Z.
Proof.
  destruct (Z.le_gt_cases (len d) 180) as [H|H].
  - now rewrite cap_description_short.
  - apply cap_description_long in H as [_ H]. lia.
Qed.

Lemma cap_description_forall (P : char -> Prop) (d : str) :
  P 46%N -> Forall P d -> Forall P (cap_description d).
Proof.
  intros Hdot Hd. unfold cap_description.
  destruct (truthy d && (180 <? len d)%Z); [|exact Hd].
  apply Forall_app. split.
  - rewrite slice_to_firstn by lia. clear -Hd. generalize (Z.to_nat 177).
    induction Hd; intros [|n]; cbn [firstn]; constructor; auto.
  - now repeat constructor.
Qed.

(** X4: every record the parser returns has a name that is not empty, lies
    on one line and carries no white space around it, and a description
    that lies on one line and is at most 180 characters long. *)
Theorem parsed_record_invariants (reply : str) (r : ProductRecord) :
  parse_llm_response reply = Some r ->
  new_product r <> [] /\
  Forall (fun x => x <> NL) (new_product r) /\
  strip (new_product r) = new_product r /\
  Forall (fun x => x <> NL) (product_description r) /\
  (len (product_description r) <= 180)%Z.
Proof.
  intros H. apply parse_some_inv in H as (_ & Hn & En & Hne & Ed).
  destruct (field_after_single_line _ _ Hn) as [Hl Hs].
  rewrite En, Ed. repeat split; try assumption.
  - now rewrite <- En.
  - destruct (contains DESC_ANCHOR reply) eqn:Hd; [|constructor].
    rewrite or_empty_some. apply cap_description_forall; [discriminate|].
    now apply field_after_single_line.
  - destruct (contains DESC_ANCHOR reply); [|cbn; lia].
    rewrite or_empty_some. apply cap_description_bound.
Qed.

Lemma parsed_record_invariants_witness :
  exists r, parse_llm_response long_reply = Some r /\
            new_product r <> [] /\
            Forall (fun x => x <> NL) (new_product r) /\
            strip (new_product r) = new_product r /\
            Forall (fun x => x <> NL) (product_description r) /\
            (len (product_description r) <= 180)%Z.
Proof.
  eexists. split; [reflexivity|].
  apply (@parsed_record_invariants long_reply). reflexivity.
Defined.

(** ** A reply in the expected format *)

Lemma index_of_prefix (sub s : str) :
  starts_with sub s = true -> index_of sub s = Some 0.
Proof. intros H. destruct s; cbn [index_of]; now rewrite H. Qed.

Lemma starts_with_app (sub rest : str) : starts_with sub (sub ++ rest) = true.
Proof. apply starts_with_prefix. now exists rest. Qed.

(** A text without the character [c] that starts across the place where
    [c] stands starts before it. *)
Lemma starts_with_separator (sub : str) (c : char) :
  ~ In c sub ->
  forall a b, starts_with sub (a ++ c :: b) = true -> starts_with sub a = true.
Proof.
  induction sub as [|x sub IH]; intros Hc a b; [reflexivity|].
  destruct a as [|y a]; cbn [app starts_with]; rewrite andb_true_iff.
  - intros [H _]. apply char_eqb_eq in H as ->. exfalso. apply Hc. now left.
  - intros [-> H]. cbn [andb]. apply (IH (fun Hin => Hc (or_intror Hin)) a b H).
Qed.

Lemma index_of_skip_line (sub l1 l2 : str) (c : char) :
  sub <> [] -> ~ In c sub -> contains sub l1 = false ->
  index_of sub (l1 ++ c :: l2) =
    option_map (fun k => length l1 + 1 + k) (index_of sub l2).
Proof.
  intros Hsub Hc. induction l1 as [|y l1 IH]; intros Hl1.
  - cbn [app index_of length plus].
    destruct (starts_with sub (c :: l2)) eqn:E.
    + apply (@starts_with_separator sub c Hc [] l2) in E.
      destruct sub; [congruence | discriminate].
    + now destruct (index_of sub l2).
  - rewrite contains_cons, orb_false_iff in Hl1. destruct Hl1 as [Hs Hl1].
    cbn [app index_of].
    destruct (starts_with sub (y :: l1 ++ c :: l2)) eqn:E.
    + apply (@starts_with_separator sub c Hc (y :: l1) l2) in E. congruence.
    + rewrite (IH Hl1). now destruct (index_of sub l2).
Qed.

Lemma index_of_char_absent (c : char) (l : str) :
  Forall (fun x => x <> c) l -> index_of [c] l = None.
Proof.
  induction 1 as [|x l Hx Hl IH]; [reflexivity|].
  cbn [index_of starts_with]. rewrite andb_true_r.
  destruct (char_eqb c x) eqn:E; [apply char_eqb_eq in E; congruence|].
  now rewrite IH.
Qed.

Lemma index_of_char_first (c : char) (l tail : str) :
  Forall (fun x => x <> c) l -> index_of [c] (l ++ c :: tail) = Some (length l).
Proof.
  induction 1 as [|x l Hx Hl IH]; cbn [app index_of starts_with length].
  - now rewrite (proj2 (char_eqb_eq c c) eq_refl).
  - rewrite andb_true_r.
    destruct (char_eqb c x) eqn:E; [apply char_eqb_eq in E; congruence|].
    now rewrite IH.
Qed.

Lemma first_line_app (l tail : str) :
  Forall (fun x => x <> NL) l -> first_line (l ++ NL :: tail) = l.
Proof.
  intros H. unfold first_line. rewrite (@index_of_char_first NL l tail H).
  now rewrite firstn_app, firstn_all, Nat.sub_diag, app_nil_r.
Qed.

Lemma first_line_whole (l : str) :
  Forall (fun x => x <> NL) l -> first_line l = l.
Proof. intros H. unfold first_line. now rewrite (@index_of_char_absent NL l H). Qed.

Lemma skipn_exact {A} (a b : list A) : skipn (length a) (a ++ b) = b.
Proof. now rewrite skipn_app, skipn_all, Nat.sub_diag. Qed.

(** The description anchor does not start inside "New Product Name: ". *)
Lemma desc_anchor_after_name_anchor (name : str) :
  contains DESC_ANCHOR (NAME_ANCHOR ++ SPACE :: name) = contains DESC_ANCHOR name.
Proof.
  set (prefix := NAME_ANCHOR). vm_compute in prefix. subst prefix. cbn [app].
  repeat (rewrite contains_cons;
          match goal with
          | |- context [starts_with DESC_ANCHOR (?c :: ?s)] =>
              let b := eval cbv in (starts_with DESC_ANCHOR (c :: s)) in
              change (starts_with DESC_ANCHOR (c :: s)) with b
          end; cbn [orb]).
  reflexivity.
Qed.

(** X5: a reply in the format the prompt asks for, with a name and a
    description that each lie on one line, parses to the stripped name
    and the stripped, capped description. *)
Theorem formatted_reply_parsed (name description : str) :
  Forall (fun x => x <> NL) name ->
  Forall (fun x => x <> NL) description ->
  strip name <> [] ->
  contains DESC_ANCHOR name = false ->
  contains SENTINEL (formatted_reply name description) = false ->
  parse_llm_response (formatted_reply name description) =
    Some {| new_product := strip name;
            product_description := cap_description (strip description) |}.
Proof.
  intros Hname Hdesc Hne Hanchor Hsent.
  set (reply := formatted_reply name description) in *.
  assert (Hsp : forall s, strip (SPACE :: s) = strip s) by reflexivity.
  assert (Hi : index_of NAME_ANCHOR reply = Some 0)
    by apply index_of_prefix, starts_with_app.
  assert (Hfn : field_after NAME_ANCHOR reply = strip name).
  { rewrite (@field_after_spec NAME_ANCHOR reply 0 Hi). cbn [plus]. unfold reply, formatted_reply.
    rewrite skipn_exact, app_comm_cons.
    rewrite (@first_line_app (SPACE :: name))
      by (constructor; [discriminate | exact Hname]).
    apply Hsp. }
  set (line1 := NAME_ANCHOR ++ SPACE :: name).
  assert (Hr : reply = line1 ++ NL :: DESC_ANCHOR ++ SPACE :: description).
  { unfold reply, formatted_reply, line1. now rewrite <- app_assoc. }
  assert (Hj : index_of DESC_ANCHOR reply = Some (length line1 + 1 + 0)).
  { rewrite Hr, index_of_skip_line.
    - now rewrite (@index_of_prefix DESC_ANCHOR _ (starts_with_app _ _)).
    - discriminate.
    - intros Hin. vm_compute in Hin. repeat (destruct Hin as [Hin|Hin]; [discriminate|]).
      exact Hin.
    - unfold line1. now rewrite desc_anchor_after_name_anchor. }
  assert (Hfd : field_after DESC_ANCHOR reply = strip description).
  { rewrite (@field_after_spec DESC_ANCHOR reply _ Hj), Hr.
    replace (line1 ++ NL :: DESC_ANCHOR ++ SPACE :: description)
      with ((line1 ++ NL :: DESC_ANCHOR) ++ SPACE :: description)
      by (now rewrite <- app_assoc).
    replace (length line1 + 1 + 0 + length DESC_ANCHOR)
      with (length (line1 ++ NL :: DESC_ANCHOR))
      by (rewrite length_app; cbn [length]; lia).
    rewrite skipn_exact.
    rewrite first_line_whole by (constructor; [discriminate | exact Hdesc]).
    apply Hsp. }
  unfold parse_llm_response. rewrite Hsent.
  unfold contains at 1. rewrite Hi. unfold contains at 1. rewrite Hj.
  rewrite Hfn, Hfd, or_empty_some.
  destruct (strip name) as [|c s]; [congruence | reflexivity].
Qed.

Lemma formatted_reply_parsed_witness :
  parse_llm_response (formatted_reply sample_name sample_description) =
    Some {| new_product := sample_name; product_description := sample_description |}.
Proof.
  apply (@formatted_reply_parsed sample_name sample_description).
  - repeat (constructor; [discriminate|]). constructor.
  - repeat (constructor; [discriminate|]). constructor.
  - discriminate.
  - reflexivity.
  - reflexivity.
Defined.

(** ** The prompt *)

Lemma build_prompt_sentinel (filing_content company_name ticker : str) :
  build_prompt filing_content company_name ticker =
    prompt_before_sentinel company_name ticker ++ SENTINEL
    ++ prompt_after_sentinel filing_content.
Proof.
  unfold build_prompt, prompt_before_sentinel, prompt_after_sentinel.
  repeat rewrite <- app_assoc. reflexivity.
Qed.

(** X6: the prompt holds the sentinel phrase, so a reply that repeats the
    prompt, with anything before and after it, gives an absent result. *)
Theorem echoed_prompt_absent
    (filing_content company_name ticker before after : str) :
  parse_llm_response
    (before ++ build_prompt filing_content company_name ticker ++ after) = None /\
  forall (w : World) (content name tick : str) (s : Store),
    ollama_generate w (trace s) MODEL (build_prompt content name tick) =
      Ok (before ++ build_prompt filing_content company_name ticker ++ after) ->
    fst (extract_product_info w (Some content) name tick s) = Ok None.
Proof.
  assert (H : parse_llm_response
    (before ++ build_prompt filing_content company_name ticker ++ after) = None).
  { apply parse_sentinel, contains_spec. rewrite build_prompt_sentinel.
    exists (before ++ prompt_before_sentinel company_name ticker),
           (prompt_after_sentinel filing_content ++ after).
    now rewrite <- !app_assoc. }
  split; [exact H|].
  intros w content name tick s Hr. destruct content as [|c content]; [reflexivity|].
  rewrite (@extract_with_reply w (c :: content) name tick _ s)
    by (discriminate || exact Hr).
  cbn [fst]. now rewrite H.
Qed.

Lemma build_prompt_length (filing_content company_name ticker : str) :
  length (build_prompt filing_content company_name ticker) =
    length filing_content + length company_name + length ticker
    + length (build_prompt [] [] []).
Proof.
  unfold build_prompt. repeat rewrite length_app. cbn [length].
  repeat match goal with
         | |- context [length (line ?x)] =>
             generalize (length (line x)); intro
         | |- context [length (of_string ?x)] =>
             generalize (length (of_string x)); intro
         end.
  generalize (length SENTINEL). intro. lia.
Qed.

(** X7: the prompt embeds the filing text, the company name and the ticker
    whole: its length is theirs plus the 495 characters of the template,
    and the filing text stands in it uncut, 30 characters before the
    end. *)
Theorem prompt_embeds_filing (filing_content company_name ticker : str) :
  length (build_prompt filing_content company_name ticker) =
    length filing_content + length company_name + length ticker + 495 /\
  exists before after,
    build_prompt filing_content company_name ticker =
      before ++ filing_content ++ after /\
    length after = 30.
Proof.
  split.
  - rewrite build_prompt_length. f_equal.
  - rewrite build_prompt_sentinel. unfold prompt_after_sentinel.
    exists (prompt_before_sentinel company_name ticker ++ SENTINEL ++ [QUOTE]
            ++ line ". " ++ [NL] ++ line "    Filing content: " ++ of_string "    "),
           (line "  # Limit content length " ++ of_string "    ").
    split; [repeat rewrite <- app_assoc; reflexivity | reflexivity].
Qed.

(** ** More on the index fetcher *)

Lemma logged_cons (s : Store) (e : event) (events : list event) :
  logged (logged s [e]) events = logged s (e :: events).
Proof. now rewrite logged_logged. Qed.

(** The events of a call of the index fetcher: its request, then at most
    a log message. *)
Lemma get_8k_filings_events (w : World) (cik : str) (s : Store) :
  exists refs extra,
    get_8k_filings w cik s =
      (Ok refs, logged s (EvGet (search_url cik) USER_AGENT :: extra)) /\
    Forall message_or_call extra /\ count is_model_call extra = 0.
Proof.
  unfold get_8k_filings, try_except, bind at 1, http_get.
  set (s0 := logged s _).
  assert (Hfail : forall e, exists refs extra,
             (print (MsgError8K cik e) ;;; ret (@nil FilingRef)) s0 =
               (Ok refs, logged s (EvGet (search_url cik) USER_AGENT :: extra)) /\
             Forall message_or_call extra /\ count is_model_call extra = 0).
  { intros e. exists [], [EvPrint (MsgError8K cik e)]. split.
    - unfold bind, print, emit, ret, s0. now rewrite logged_cons.
    - split; [repeat constructor | reflexivity]. }
  destruct (requests_get w (trace s) (search_url cik)) as [r|e]; [|apply Hfail].
  unfold bind at 1, lift at 1.
  destruct (raise_for_status r) as [[]|e]; [|apply Hfail].
  unfold bind at 1, lift at 1.
  destruct (response_json r) as [data|e]; [|apply Hfail].
  pose proof (select_8k_silent data s0) as Hs.
  destruct (select_8k data s0) as [[refs|e] s1]; cbn in Hs; subst s1.
  - exists refs, []. split; [reflexivity|]. split; [constructor | reflexivity].
  - apply Hfail.
Qed.

(** X8: a call of the index fetcher makes one request, for the index of the
    company and with the contact address, and never raises; whenever it
    logs an error the list it returns is empty. *)
Theorem index_fetch_effects (w : World) (cik : str) (s : Store) :
  exists refs extra,
    get_8k_filings w cik s =
      (Ok refs, logged s (EvGet (search_url cik) USER_AGENT :: extra)) /\
    (extra = [] \/ (refs = [] /\ exists e, extra = [EvPrint (MsgError8K cik e)])).
Proof.
  unfold get_8k_filings, try_except, bind at 1, http_get.
  set (s0 := logged s _).
  assert (Hfail : forall e, exists refs extra,
             (print (MsgError8K cik e) ;;; ret (@nil FilingRef)) s0 =
               (Ok refs, logged s (EvGet (search_url cik) USER_AGENT :: extra)) /\
             (extra = [] \/ (refs = [] /\ exists e', extra = [EvPrint (MsgError8K cik e')]))).
  { intros e. exists [], [EvPrint (MsgError8K cik e)]. split.
    - unfold bind, print, emit, ret, s0. now rewrite logged_cons.
    - right. split; [reflexivity | now exists e]. }
  destruct (requests_get w (trace s) (search_url cik)) as [r|e]; [|apply Hfail].
  unfold bind at 1, lift at 1.
  destruct (raise_for_status r) as [[]|e]; [|apply Hfail].
  unfold bind at 1, lift at 1.
  destruct (response_json r) as [data|e]; [|apply Hfail].
  pose proof (select_8k_silent data s0) as Hs.
  destruct (select_8k data s0) as [[refs|e] s1]; cbn in Hs; subst s1.
  - exists refs, []. split; [reflexivity | now left].
  - apply Hfail.
Qed.

(** Reading a list column at given indices succeeds when all are within
    the list and raises [IndexError] otherwise. *)
Lemma pick_in_range (col : list value) (idx : list nat) :
  Forall (fun i => i < length col) idx ->
  exists vs, map_result (PyObj.getindex (VList col)) idx = Ok vs.
Proof.
  induction 1 as [|i idx Hi Hidx [vs IH]]; [now exists []|].
  cbn [map_result PyObj.getindex].
  destruct (nth_error col i) as [x|] eqn:E.
  - rewrite IH. now exists (x :: vs).
  - apply nth_error_None in E. lia.
Qed.

Lemma pick_out_of_range (col : list value) (idx : list nat) :
  Exists (fun i => length col <= i) idx ->
  map_result (PyObj.getindex (VList col)) idx = Raise IndexError.
Proof.
  induction 1 as [i idx Hi|i idx Hidx IH]; cbn [map_result PyObj.getindex].
  - apply nth_error_None in Hi. now rewrite Hi.
  - destruct (nth_error col i); [now rewrite IH | reflexivity].
Qed.

Lemma pick_column_get (recent : list (str * value)) (key : str) (col : list value)
    (idx : list nat) :
  PyObj.get (VDict recent) key (VList []) = Ok (VList col) ->
  pick (VDict recent) key idx = map_result (PyObj.getindex (VList col)) idx.
Proof.
  intros H. unfold pick. apply map_result_ext. intros i. now rewrite H.
Qed.

(** X9: when some '8-K' entry stands at an index that the filing-date or
    the accession-number array does not reach (a missing array counts as
    empty), the fetcher logs an [IndexError] and returns the empty list:
    the filings the arrays do cover are lost with it. *)
Theorem index_fetch_short_column
    (w : World) (cik : str) (s : Store) (r : response)
    (data filings recent : list (str * value)) (forms dates accessions : list value) :
  requests_get w (trace s) (search_url cik) = Ok r ->
  raise_for_status r = Ok tt ->
  json r = Some (VDict data) ->
  PyObj.lookup (of_string "filings") data = Some (VDict filings) ->
  PyObj.lookup (of_string "recent") filings = Some (VDict recent) ->
  PyObj.lookup (of_string "form") recent = Some (VList forms) ->
  PyObj.get (VDict recent) (of_string "filingDate") (VList []) = Ok (VList dates) ->
  PyObj.get (VDict recent) (of_string "accessionNumber") (VList []) =
    Ok (VList accessions) ->
  Exists (fun i => length dates <= i \/ length accessions <= i) (indices_8k 0 forms) ->
  get_8k_filings w cik s =
    (Ok [], logged s [EvGet (search_url cik) USER_AGENT;
                      EvPrint (MsgError8K cik IndexError)]).
Proof.
  intros Hg Hs Hj Hf Hr Hform Hd Ha Hex.
  rewrite (get_8k_filings_parsed w cik s Hg Hs Hj). unfold try_except.
  assert (Hsel : select_8k (VDict data) (logged s [EvGet (search_url cik) USER_AGENT])
                 = (Raise IndexError, logged s [EvGet (search_url cik) USER_AGENT])).
  { unfold select_8k, bind, lift, ret. cbn [PyObj.py_in PyObj.getitem].
    rewrite Hf. cbn [PyObj.py_in PyObj.getitem]. rewrite Hr.
    cbn [PyObj.get]. rewrite Hform. cbn [PyObj.iterate].
    destruct (indices_8k 0 forms) as [|i rest] eqn:Hidx; [inversion Hex|].
    rewrite (@pick_column_get recent _ dates _ Hd), (@pick_column_get recent _ accessions _ Ha).
    destruct (Forall_Exists_dec (fun i => i < length dates)
                (fun i => lt_dec i (length dates)) (i :: rest)) as [Hall|Hsome].
    - destruct (@pick_in_range dates _ Hall) as [vs ->].
      rewrite pick_out_of_range; [reflexivity|].
      apply Exists_exists in Hex as (j & Hin & Hj').
      apply Exists_exists. exists j. split; [exact Hin|].
      rewrite Forall_forall in Hall. specialize (Hall j Hin). lia.
    - rewrite pick_out_of_range; [reflexivity|].
      eapply Exists_impl; [|exact Hsome]. cbn. intros; lia. }
  rewrite Hsel. unfold bind, print, emit, ret. now rewrite logged_cons.
Qed.

Lemma index_fetch_short_column_witness :
  get_8k_filings forms_only_world apple_cik empty_store =
    (Ok [], logged empty_store [EvGet (search_url apple_cik) USER_AGENT;
                                EvPrint (MsgError8K apple_cik IndexError)]).
Proof.
  eapply index_fetch_short_column
    with (forms := [vstr "10-K"; vstr "8-K"]) (dates := []) (accessions := []);
    try reflexivity.
  apply Exists_cons_hd. left. cbn. lia.
Defined.

Lemma indices_8k_none (forms : list value) :
  filter is_8k forms = [] -> forall k, indices_8k k forms = [].
Proof.
  induction forms as [|form forms IH]; intros H k; [reflexivity|].
  cbn [filter indices_8k] in *. fold (is_8k form).
  destruct (is_8k form); [discriminate | now apply IH].
Qed.

(** X10: when the 'recent' object has no 'form' array, or the array holds
    no '8-K', the fetcher returns the empty list without logging and
    without looking at the other arrays, which may be missing. *)
Theorem index_fetch_no_forms
    (w : World) (cik : str) (s : Store) (r : response)
    (data filings recent : list (str * value)) :
  requests_get w (trace s) (search_url cik) = Ok r ->
  raise_for_status r = Ok tt ->
  json r = Some (VDict data) ->
  PyObj.lookup (of_string "filings") data = Some (VDict filings) ->
  PyObj.lookup (of_string "recent") filings = Some (VDict recent) ->
  PyObj.lookup (of_string "form") recent = None \/
  (exists forms, PyObj.lookup (of_string "form") recent = Some (VList forms) /\
                 filter is_8k forms = []) ->
  get_8k_filings w cik s = (Ok [], logged s [EvGet (search_url cik) USER_AGENT]).
Proof.
  intros Hg Hs Hj Hf Hr Hform.
  rewrite (get_8k_filings_parsed w cik s Hg Hs Hj). unfold try_except.
  unfold select_8k, bind, lift, ret. cbn [PyObj.py_in PyObj.getitem].
  rewrite Hf. cbn [PyObj.py_in PyObj.getitem]. rewrite Hr. cbn [PyObj.get].
  destruct Hform as [-> | (forms & -> & Hnone)]; cbn [PyObj.iterate indices_8k].
  - reflexivity.
  - now rewrite (@indices_8k_none forms Hnone).
Qed.

Lemma index_fetch_no_forms_witness :
  get_8k_filings no_8k_world apple_cik empty_store =
    (Ok [], logged empty_store [EvGet (search_url apple_cik) USER_AGENT]).
Proof.
  eapply index_fetch_no_forms; try reflexivity.
  right. exists [vstr "10-K"; vstr "4"]. split; reflexivity.
Defined.

(** ** The content fetcher *)

(** Replacing a character by nothing removes it and keeps the rest. *)
Lemma replace_char_by_nothing (c : char) (s : str) :
  replace [c] [] s = filter (fun x => negb (char_eqb x c)) s.
Proof.
  unfold replace. induction s as [|x s IH]; [reflexivity|].
  cbn [replace_go starts_with length Nat.sub app filter].
  rewrite (char_eqb_sym c x).
  destruct s; rewrite andb_true_r; destruct (char_eqb x c); cbn [negb app];
    now rewrite <- IH.
Qed.

(** X11: the address of a filing's document is the archive address, the
    company identifier, the accession number without its dashes (every
    other character kept, in order) and the file name made of the
    accession number as it is. *)
Theorem document_url_dashless (cik accession : str) (filing_date : value) :
  document_url cik (filing_date, VStr accession) =
    of_string "https://www.sec.gov/Archives/edgar/data/" ++ cik ++ of_string "/"
    ++ filter (fun c => negb (char_eqb c DASH)) accession
    ++ of_string "/" ++ accession ++ of_string ".txt" /\
  ~ In DASH (filter (fun c => negb (char_eqb c DASH)) accession).
Proof.
  split.
  - unfold document_url, filing_url. cbn [snd].
    now rewrite <- replace_char_by_nothing.
  - rewrite filter_In. intros [_ H].
    now rewrite (proj2 (char_eqb_eq DASH DASH) eq_refl) in H.
Qed.


(** ** The extractor *)

(** X13: the extractor never raises and makes no request.  On a filing
    text that is not empty it calls the model once, with the model name
    "mistral" and the prompt built from the text, the company name and the
    ticker; a reply is parsed, and a failure of the call is logged and
    gives an absent result. *)
Theorem extract_effects
    (w : World) (filing_content : option str) (name tick : str) (s : Store) :
  (extract_product_info w filing_content name tick s = (Ok None, s) /\
   (filing_content = None \/ filing_content = Some [])) \/
  exists content,
    filing_content = Some content /\ content <> [] /\
    let call := EvGenerate MODEL (build_prompt content name tick) in
    ((exists reply,
        ollama_generate w (trace s) MODEL (build_prompt content name tick) = Ok reply /\
        extract_product_info w filing_content name tick s =
          (Ok (parse_llm_response reply), logged s [call])) \/
     (exists e,
        ollama_generate w (trace s) MODEL (build_prompt content name tick) = Raise e /\
        extract_product_info w filing_content name tick s =
          (Ok None, logged s [call; EvPrint (MsgErrorLLM e)]))).
Proof.
  destruct filing_content as [[|c content]|]; [left; split; auto | | left; split; auto].
  right. exists (c :: content). split; [reflexivity|]. split; [discriminate|].
  intros call. unfold extract_product_info, try_except, bind, generate.
  destruct (ollama_generate w (trace s) MODEL (build_prompt (c :: content) name tick))
    as [reply|e].
  - left. exists reply. split; reflexivity.
  - right. exists e. split; [reflexivity|].
    unfold print, emit, ret. now rewrite logged_cons.
Qed.


(** ** Counting events *)

Lemma count_app (kind : event -> bool) (a b : list event) :
  count kind (a ++ b) = count kind a + count kind b.
Proof. unfold count. now rewrite filter_app, length_app. Qed.

Lemma count_message_or_call (middle : list event) :
  Forall message_or_call middle ->
  count is_request middle = 0 /\ count is_sleep middle = 0.
Proof.
  induction 1 as [|e middle He Hm (IH1 & IH2)]; [now repeat split|].
  change (e :: middle) with ([e] ++ middle). rewrite !count_app, IH1, IH2.
  destruct He as [He|He]; destruct e; try discriminate; now repeat split.
Qed.

Lemma after_trace (s s' : Store) (events : list event) (rows : list ResultRow) :
  after s s' events rows -> trace s' = trace s ++ events.
Proof. now intros [H _]. Qed.

(** ** One filing *)

(** The events of the content fetcher after its request, and those of
    the extractor. *)
Lemma get_filing_content_events (w : World) (accession cik : str) (s : Store) :
  exists content s' extra,
    get_filing_content w (VStr accession) cik s = (Ok content, s') /\
    after s s'
      (EvGet (document_url cik (VNone, VStr accession)) USER_AGENT :: extra) [] /\
    Forall message_or_call extra /\ count is_model_call extra = 0.
Proof.
  unfold get_filing_content, try_except, bind at 1, http_get, document_url.
  cbn [snd].
  set (url := filing_url cik _ accession).
  pose proof (after_logged s [EvGet url USER_AGENT]) as H0.
  set (s0 := logged s _) in *.
  assert (Hfail : forall e, exists content s' extra,
             (print (MsgErrorContent accession e) ;;; ret (@None str)) s0
               = (Ok content, s') /\
             after s s' (EvGet url USER_AGENT :: extra) [] /\
             Forall message_or_call extra /\ count is_model_call extra = 0).
  { intros e. eexists None, (logged s0 [EvPrint (MsgErrorContent accession e)]), _.
    split; [reflexivity|]. split.
    - apply (after_trans H0 (after_logged s0 _)).
    - split; [repeat constructor | reflexivity]. }
  destruct (requests_get w (trace s) url) as [r|e]; [|apply Hfail].
  unfold bind at 1, lift at 1.
  destruct (raise_for_status r) as [[]|e]; [|apply Hfail].
  destruct (search_text (text r)); eexists _, s0, []; (split; [reflexivity|]);
    (split; [exact H0 | split; [constructor | reflexivity]]).
Qed.

Lemma extract_product_info_events
    (w : World) (content : option str) (name tick : str) (s : Store) :
  exists r s' events,
    extract_product_info w content name tick s = (Ok r, s') /\
    after s s' events [] /\
    Forall message_or_call events /\ count is_model_call events <= 1.
Proof.
  destruct content as [[|c content]|].
  2: { unfold extract_product_info, try_except, bind, generate.
       set (prompt := build_prompt _ _ _).
       pose proof (after_logged s [EvGenerate MODEL prompt]) as H0.
       set (s0 := logged s _) in *.
       destruct (ollama_generate w (trace s) MODEL prompt) as [reply|e].
       - eexists (parse_llm_response reply), s0, _. split; [reflexivity|].
         split; [exact H0|]. split; [repeat constructor; now right | cbn; lia].
       - eexists None, (logged s0 [EvPrint (MsgErrorLLM e)]), _.
         split; [reflexivity|]. split.
         + apply (after_trans H0 (after_logged s0 _)).
         + split; [|cbn; lia].
           constructor; [now right|]. constructor; [now left | constructor]. }
  all: exists None, s, []; split; [reflexivity|]; split; [apply after_refl|];
    split; [constructor | cbn; lia].
Qed.

(** A filing whose accession number is a string is worked through. *)
Lemma process_filing_block
    (w : World) (company : CompanyRef) (filing_date : value) (accession : str)
    (s : Store) :
  exists s' block,
    process_filing w company (filing_date, VStr accession) s = (Ok tt, s') /\
    trace s' = trace s ++ block /\
    filing_block company (filing_date, VStr accession) block.
Proof.
  unfold process_filing, bind at 1, print at 1, emit at 1.
  pose proof (after_logged s [EvPrint (MsgAnalyzing filing_date)]) as H0.
  set (s0 := logged s _) in *.
  destruct (get_filing_content_events w accession (cik_str company) s0)
    as (content & s1 & ev1 & E1 & A1 & F1 & C1).
  unfold bind at 1. rewrite E1.
  destruct (extract_product_info_events w content (title company) (ticker company) s1)
    as (r & s2 & ev2 & E2 & A2 & F2 & C2).
  unfold bind at 1. rewrite E2.
  destruct r as [info|].
  - pose proof (after_append_row s2 (result_row company filing_date info)) as A3.
    unfold append_row in A3. cbn [snd] in A3.
    set (s3 := Build_Store _ _) in A3.
    unfold bind, append_row, print, emit, sleep, ret. fold s3.
    eexists _, _. split; [reflexivity|]. split.
    + apply (after_trace (rows := [] ++ [] ++ [] ++ [result_row company filing_date info]
                                    ++ [] ++ [])).
      exact (after_trans H0 (after_trans A1 (after_trans A2 (after_trans A3
               (after_trans (after_logged s3 [EvPrint (MsgFound (new_product info))])
                            (after_logged _ [EvSleep 1])))))).
    + exists (ev1 ++ ev2 ++ [EvPrint (MsgFound (new_product info))]).
      split; [cbn [app fst]; now rewrite <- !app_assoc|]. split.
      * apply Forall_app. split; [exact F1|]. apply Forall_app. split; [exact F2|].
        repeat constructor.
      * rewrite !count_app, C1. cbn. lia.
  - unfold bind, sleep, emit, ret.
    eexists _, _. split; [reflexivity|]. split.
    + apply (after_trace (rows := [] ++ [] ++ [] ++ [])).
      exact (after_trans H0 (after_trans A1 (after_trans A2
               (after_logged s2 [EvSleep 1])))).
    + exists (ev1 ++ ev2).
      split; [cbn [app fst]; now rewrite <- !app_assoc|]. split.
      * apply Forall_app. now split.
      * rewrite !count_app, C1. lia.
Qed.

(** X14: the loop over filings whose accession numbers are strings works
    through every filing in turn and completes: for each filing the trace
    shows the announcement, one request for its document, log messages
    and at most one call of the model, and then one pause of one second,
    so a pause separates the requests of any two filings. *)
Theorem filings_loop_throttled
    (w : World) (company : CompanyRef) (filings : list FilingRef) (s : Store) :
  Forall (fun f => is_str (snd f) = true) filings ->
  exists s' blocks,
    for_each (process_filing w company) filings s = (Ok tt, s') /\
    trace s' = trace s ++ concat blocks /\
    Forall2 (filing_block company) filings blocks.
Proof.
  intros H. revert s. induction H as [|[d v] l Hf Hl IH]; intros s.
  - exists s, []. split; [reflexivity|]. split; [now rewrite app_nil_r | constructor].
  - cbn [snd] in Hf. destruct v as [| | | |a| |]; try discriminate.
    destruct (process_filing_block w company d a s) as (s1 & block & E & T & B).
    destruct (IH s1) as (s2 & blocks & E2 & T2 & B2).
    exists s2, (block :: blocks). cbn [for_each]. unfold bind. rewrite E, E2.
    split; [reflexivity|]. split; [|now constructor].
    cbn [concat]. now rewrite T2, T, app_assoc.
Qed.

Lemma filings_loop_throttled_witness :
  exists s' blocks,
    for_each (process_filing sample_world apple) sample_filings empty_store =
      (Ok tt, s') /\
    trace s' = trace empty_store ++ concat blocks /\
    Forall2 (filing_block apple) sample_filings blocks.
Proof.
  apply (@filings_loop_throttled sample_world apple sample_filings empty_store).
  repeat constructor.
Defined.

(** ** The budget of the loops *)

Lemma within_budget_nil : within_budget 0 0 0 [].
Proof. unfold within_budget, count. cbn. lia. Qed.

Lemma within_budget_app (r1 c1 p1 r2 c2 p2 : nat) (a b : list event) :
  within_budget r1 c1 p1 a -> within_budget r2 c2 p2 b ->
  within_budget (r1 + r2) (c1 + c2) (p1 + p2) (a ++ b).
Proof.
  unfold within_budget. intros (?&?&?) (?&?&?). rewrite !count_app. lia.
Qed.

Lemma within_budget_weaken (r1 c1 p1 r2 c2 p2 : nat) (a : list event) :
  within_budget r1 c1 p1 a ->
  r1 <= r2 -> c1 <= c2 -> p1 <= p2 ->
  within_budget r2 c2 p2 a.
Proof. unfold within_budget. intros (?&?&?) ? ? ?. lia. Qed.

Lemma filing_block_budget (company : CompanyRef) (filing : FilingRef)
    (block : list event) :
  filing_block company filing block -> within_budget 1 1 1 block.
Proof.
  intros (middle & -> & Hm & Hc).
  destruct (count_message_or_call Hm) as (Hr & Hs).
  unfold within_budget. rewrite !count_app, Hr, Hs. cbn. lia.
Qed.

(** Any filing: at most one request, one model call, one pause. *)
Lemma process_filing_budget
    (w : World) (company : CompanyRef) (filing : FilingRef) (s : Store) :
  exists events,
    trace (snd (process_filing w company filing s)) = trace s ++ events /\
    within_budget 1 1 1 events.
Proof.
  destruct filing as [d v]. destruct (is_str v) eqn:Hv.
  - destruct v as [| | | |a| |]; try discriminate.
    destruct (process_filing_block w company d a s) as (s' & block & E & T & B).
    exists block. rewrite E. split; [exact T|]. now apply filing_block_budget in B.
  - exists [EvPrint (MsgAnalyzing d)].
    unfold process_filing, bind at 1, print at 1, emit at 1. unfold bind at 1.
    rewrite get_filing_content_not_str by exact Hv.
    split; [reflexivity|]. unfold within_budget, count. cbn. lia.
Qed.

(** A loop spends at most the budget of its body for each element. *)
Lemma for_each_budget {A} (body : A -> M unit) (r c p : nat) :
  (forall x s, exists events,
      trace (snd (body x s)) = trace s ++ events /\ within_budget r c p events) ->
  forall l s, exists events,
    trace (snd (for_each body l s)) = trace s ++ events /\
    within_budget (r * length l) (c * length l) (p * length l) events.
Proof.
  intros Hbody. induction l as [|x l IH]; intros s.
  - exists []. cbn. rewrite app_nil_r, !Nat.mul_0_r. split; [reflexivity|].
    apply within_budget_nil.
  - destruct (Hbody x s) as (ev & T & B). cbn [for_each]. unfold bind.
    destruct (body x s) as [[[]|e] s1]; cbn [snd] in T.
    + destruct (IH s1) as (ev' & T' & B'). exists (ev ++ ev').
      split; [now rewrite T', T, app_assoc|].
      eapply within_budget_weaken; [exact (within_budget_app B B')| | |];
        cbn [length]; lia.
    + exists ev. split; [exact T|].
      eapply within_budget_weaken; [exact B| | |]; cbn [length]; lia.
Qed.

(** X15: the work on one company, and the loop over the companies.  For
    one company the driver makes at most six requests (the index and at
    most five documents), five calls of the model and five pauses; the
    loop over [n] companies makes at most [6 * n] requests, [5 * n] calls
    of the model and [5 * n] pauses, whether it completes or is stopped by
    an error. *)
Theorem loop_budget (w : World) :
  (forall (company : CompanyRef) (s : Store),
     exists events,
       trace (snd (process_company w company s)) = trace s ++ events /\
       within_budget 6 5 5 events) /\
  (forall (companies : list CompanyRef) (s : Store),
     exists events,
       trace (snd (for_each (process_company w) companies s)) = trace s ++ events /\
       within_budget (6 * length companies) (5 * length companies)
                     (5 * length companies) events).
Proof.
  assert (Hone : forall (company : CompanyRef) (s : Store),
             exists events,
               trace (snd (process_company w company s)) = trace s ++ events /\
               within_budget 6 5 5 events).
  { intros company s. unfold process_company, bind at 1, print, emit.
    set (s0 := logged s _).
    destruct (get_8k_filings_events w (cik_str company) s0)
      as (filings & extra & E & Hx & Hc).
    unfold bind at 1. rewrite E.
    set (s1 := logged s0 _).
    destruct (@for_each_budget _ (process_filing w company) 1 1 1
                (process_filing_budget w company) (firstn 5 filings) s1)
      as (ev & T & B).
    exists ([EvPrint (MsgProcessing (title company) (cik_str company) (ticker company));
             EvGet (search_url (cik_str company)) USER_AGENT] ++ extra ++ ev).
    split.
    - rewrite T. unfold s1, s0. cbn [trace logged]. now rewrite <- !app_assoc.
    - assert (Hl : length (firstn 5 filings) <= 5) by (rewrite length_firstn; lia).
      assert (Hextra : within_budget 0 0 0 extra).
      { destruct (count_message_or_call Hx) as (Hr & Hs).
        unfold within_budget. lia. }
      assert (Hhead : within_budget 1 0 0
                [EvPrint (MsgProcessing (title company) (cik_str company)
                            (ticker company));
                 EvGet (search_url (cik_str company)) USER_AGENT])
        by (unfold within_budget, count; cbn; lia).
      eapply within_budget_weaken;
        [exact (within_budget_app Hhead (within_budget_app Hextra B)) | | |]; lia. }
  split; [exact Hone|].
  intros companies s.
  exact (@for_each_budget _ (process_company w) 6 5 5 Hone companies s).
Qed.

(** ** A filing that stops the loop *)

(** X17: a filing whose accession number is not a string stops the loop
    over the filings with an [AttributeError]: the filings before it are
    worked through, the filing itself is announced but its document is
    not requested, and the filings after it are neither announced nor
    requested. *)
Theorem filings_loop_stops
    (w : World) (company : CompanyRef) (done rest : list FilingRef)
    (filing_date accession_number : value) (s : Store) :
  Forall (fun f => is_str (snd f) = true) done ->
  is_str accession_number = false ->
  exists s' events,
    for_each (process_filing w company)
      (done ++ (filing_date, accession_number) :: rest) s =
      (Raise AttributeError, s') /\
    trace s' = trace s ++ events /\
    analyzed events = List.map fst done ++ [filing_date] /\
    requested events = List.map (document_url (cik_str company)) done.
Proof.
  intros Hdone Hv.
  destruct (@for_each_filing_trace w company done Hdone s)
    as (s1 & ev & E & T & A & R).
  exists (logged s1 [EvPrint (MsgAnalyzing filing_date)]),
         (ev ++ [EvPrint (MsgAnalyzing filing_date)]).
  rewrite for_each_app. unfold bind at 1. rewrite E.
  cbn [for_each]. unfold bind at 1.
  unfold process_filing, bind at 1, print at 1, emit at 1. unfold bind at 1.
  rewrite get_filing_content_not_str by exact Hv.
  split; [reflexivity|]. split; [|split].
  - cbn [trace logged]. now rewrite T, app_assoc.
  - now rewrite analyzed_app, A.
  - now rewrite requested_app, R, app_nil_r.
Qed.

Lemma filings_loop_stops_witness :
  exists s' events,
    for_each (process_filing sample_world apple)
      (sample_filings ++ (vstr "2023-11-02", VInt 104) :: sample_filings)
      empty_store = (Raise AttributeError, s') /\
    trace s' = trace empty_store ++ events /\
    analyzed events = List.map fst sample_filings ++ [vstr "2023-11-02"] /\
    requested events = List.map (document_url (cik_str apple)) sample_filings.
Proof.
  apply (@filings_loop_stops sample_world apple sample_filings sample_filings
           (vstr "2023-11-02") (VInt 104) empty_store).
  - repeat constructor.
  - reflexivity.
Defined.

(** ** The size of the table *)

Lemma filing_rows_length (company : CompanyRef) (filings : list FilingRef)
    (parts : list (list ResultRow)) :
  Forall2 (filing_rows company) filings parts ->
  length (concat parts) <= length filings /\
  Forall (fun r => row_new_product r <> [] /\
                   row_company_name r = title company /\
                   row_stock_name r = ticker company) (concat parts).
Proof.
  induction 1 as [|f rows filings parts Hf Hrest [IHl IHf]];
    [split; [cbn; lia | constructor]|].
  cbn [concat length]. rewrite length_app.
  destruct Hf as [-> | (info & Hne & ->)]; cbn [length app].
  - split; [lia | exact IHf].
  - split; [lia|]. constructor; [|exact IHf]. now repeat split.
Qed.

(** X18: the rows the loop over the companies appends fall into one group
    for each company, in the order of the companies; the group of a
    company holds at most five rows, and each of them carries the name and
    the ticker of that company and a product name that is not empty. *)
Theorem row_budget (w : World) (companies : list CompanyRef) (s : Store) :
  exists groups,
    results_df (snd (for_each (process_company w) companies s)) =
      results_df s ++ concat groups /\
    Forall2 (fun company group =>
               length group <= 5 /\
               Forall (fun r => row_new_product r <> [] /\
                                row_company_name r = title company /\
                                row_stock_name r = ticker company) group)
            companies groups.
Proof.
  destruct (companies_loop_rows w companies s)
    as (res & s1 & ev & groups & E & [_ A] & F).
  exists groups. rewrite E. split; [exact A|].
  clear E A. induction F as [|company group companies groups Hc F IH];
    constructor; [|exact IH].
  destruct Hc as (filings & parts & Hfive & Hparts & ->).
  destruct (filing_rows_length Hparts) as [Hl Hf]. split; [lia | exact Hf].
Qed.

(** ** What a non-empty index result tells *)

Lemma map_result_length {A B} (f : A -> result B) (l : list A) :
  forall vs, map_result f l = Ok vs -> length vs = length l.
Proof.
  induction l as [|x l IH]; intros vs; cbn [map_result].
  - intros H. now injection H as <-.
  - destruct (f x); [|discriminate].
    destruct (map_result f l) as [ys|]; [|discriminate].
    intros H. injection H as <-. cbn [length]. now rewrite (IH ys eq_refl).
Qed.

Lemma indices_8k_length (forms : list value) :
  forall k, length (indices_8k k forms) = length (filter is_8k forms).
Proof.
  induction forms as [|form forms IH]; intros k; [reflexivity|].
  cbn [indices_8k filter]. fold (is_8k form).
  destruct (is_8k form); cbn [length]; now rewrite IH.
Qed.

Lemma select_8k_nonempty (data : value) (s s' : Store) (refs : list FilingRef) :
  select_8k data s = (Ok refs, s') ->
  refs <> [] ->
  exists d filings recent column forms,
    data = VDict d /\
    PyObj.lookup (of_string "filings") d = Some (VDict filings) /\
    PyObj.lookup (of_string "recent") filings = Some (VDict recent) /\
    PyObj.get (VDict recent) (of_string "form") (VList []) = Ok column /\
    PyObj.iterate column = Ok forms /\
    length refs = length (filter is_8k forms).
Proof.
  unfold select_8k, bind, lift, ret. intros H Hne.
  destruct (PyObj.py_in (of_string "filings") data) as [[|]|] eqn:E1;
    [ | cbn in H; injection H as <- _; now elim Hne | discriminate].
  destruct (PyObj.getitem data (of_string "filings")) as [f|] eqn:E2;
    [|discriminate].
  destruct (PyObj.py_in (of_string "recent") f) as [[|]|] eqn:E3;
    [ | cbn in H; injection H as <- _; now elim Hne | discriminate].
  destruct (PyObj.getitem f (of_string "recent")) as [rf|] eqn:E4;
    [|discriminate].
  destruct (PyObj.get rf (of_string "form") (VList [])) as [column|] eqn:E5;
    [|discriminate].
  destruct (PyObj.iterate column) as [forms|] eqn:E6; [|discriminate].
  destruct (indices_8k 0 forms) as [|i idx] eqn:E7;
    [cbn in H; injection H as <- _; now elim Hne|].
  destruct (pick rf (of_string "filingDate") (i :: idx)) as [ds|] eqn:E8;
    [|discriminate].
  destruct (pick rf (of_string "accessionNumber") (i :: idx)) as [accs|] eqn:E9;
    [|discriminate].
  injection H as <- _.
  destruct data as [| | | | | |d]; try discriminate E2.
  cbn [PyObj.getitem] in E2.
  destruct (PyObj.lookup (of_string "filings") d) as [f'|] eqn:L1; [|discriminate].
  injection E2 as ->.
  destruct f as [| | | | | |filings]; try discriminate E4.
  cbn [PyObj.getitem] in E4.
  destruct (PyObj.lookup (of_string "recent") filings) as [rf'|] eqn:L2;
    [|discriminate].
  injection E4 as ->.
  destruct rf as [| | | | | |recent]; try discriminate E5.
  exists d, filings, recent, column, forms.
  repeat split; try assumption; try reflexivity.
  apply map_result_length in E8. apply map_result_length in E9.
  unfold FilingRef. rewrite length_combine, E8, E9, Nat.min_id, <- E7.
  apply indices_8k_length.
Qed.

(** X19: when the index fetcher returns a list that is not empty, the
    request and its status were good, the body is an object holding an
    object under 'filings' and an object under 'recent', nothing was
    logged, and the list has as many pairs as the 'form' entry has items
    equal to '8-K'. *)
Theorem index_fetch_nonempty
    (w : World) (cik : str) (s s' : Store) (refs : list FilingRef) :
  get_8k_filings w cik s = (Ok refs, s') ->
  refs <> [] ->
  exists r d filings recent column forms,
    requests_get w (trace s) (search_url cik) = Ok r /\
    raise_for_status r = Ok tt /\
    json r = Some (VDict d) /\
    PyObj.lookup (of_string "filings") d = Some (VDict filings) /\
    PyObj.lookup (of_string "recent") filings = Some (VDict recent) /\
    PyObj.get (VDict recent) (of_string "form") (VList []) = Ok column /\
    PyObj.iterate column = Ok forms /\
    length refs = length (filter is_8k forms) /\
    s' = logged s [EvGet (search_url cik) USER_AGENT].
Proof.
  intros H Hne.
  destruct (requests_get w (trace s) (search_url cik)) as [r|e] eqn:Hg.
  2: { revert H. run_request Hg. intros H. injection H as <- _. congruence. }
  destruct (raise_for_status r) as [[]|e] eqn:Hs.
  2: { revert H. run_request Hg. run_lifted Hs. intros H.
       injection H as <- _. congruence. }
  destruct (json r) as [data|] eqn:Hj.
  2: { revert H. run_request Hg. run_lifted Hs. unfold response_json.
       run_lifted Hj. intros H. injection H as <- _. congruence. }
  rewrite (get_8k_filings_parsed w cik s Hg Hs Hj) in H. unfold try_except in H.
  pose proof (select_8k_silent data (logged s [EvGet (search_url cik) USER_AGENT]))
    as Hsil.
  destruct (select_8k data (logged s [EvGet (search_url cik) USER_AGENT]))
    as [[refs'|e] s1] eqn:Hsel; cbn [snd] in Hsil; subst s1.
  - injection H as -> <-.
    destruct (select_8k_nonempty _ _ Hsel Hne)
      as (d & filings & recent & column & forms & -> & H1 & H2 & H3 & H4 & H5).
    exists r, d, filings, recent, column, forms. now repeat split.
  - injection H as <- _. congruence.
Qed.

Lemma index_fetch_nonempty_witness :
  exists r d filings recent column forms,
    requests_get sample_world (trace empty_store) (search_url apple_cik) = Ok r /\
    raise_for_status r = Ok tt /\
    json r = Some (VDict d) /\
    PyObj.lookup (of_string "filings") d = Some (VDict filings) /\
    PyObj.lookup (of_string "recent") filings = Some (VDict recent) /\
    PyObj.get (VDict recent) (of_string "form") (VList []) = Ok column /\
    PyObj.iterate column = Ok forms /\
    length sample_filings = length (filter is_8k forms) /\
    logged empty_store [EvGet (search_url apple_cik) USER_AGENT] =
      logged empty_store [EvGet (search_url apple_cik) USER_AGENT].
Proof.
  apply (@index_fetch_nonempty sample_world apple_cik empty_store
           (logged empty_store [EvGet (search_url apple_cik) USER_AGENT])
           sample_filings).
  - reflexivity.
  - discriminate.
Defined.

(** ** Where the fields come from *)

Lemma field_after_first (anchor reply : str) :
  anchor <> [] ->
  contains anchor reply = true ->
  exists before after,
    reply = before ++ anchor ++ after /\
    contains anchor before = false /\
    field_after anchor reply = strip (first_line after).
Proof.
  intros Ha H. apply contains_index in H as [i Hi].
  exists (firstn i reply), (skipn (i + length anchor) reply). split; [|split].
  - now apply index_of_some in Hi as [Hi _].
  - now apply (@index_of_prefix_free anchor reply i).
  - now apply field_after_spec.
Qed.

(** X20: the fields of a returned record come from the first occurrence of
    their anchors: the name is the stripped first line of what follows
    the first "New Product Name:", and the description, when its anchor
    is there, is the stripped and capped first line of what follows the
    first "Product Description:"; without that anchor it is empty. *)
Theorem fields_from_first_anchor (reply : str) (r : ProductRecord) :
  parse_llm_response reply = Some r ->
  (exists before after,
     reply = before ++ NAME_ANCHOR ++ after /\
     contains NAME_ANCHOR before = false /\
     new_product r = strip (first_line after)) /\
  ((contains DESC_ANCHOR reply = false /\ product_description r = []) \/
   (exists before after,
      reply = before ++ DESC_ANCHOR ++ after /\
      contains DESC_ANCHOR before = false /\
      product_description r = cap_description (strip (first_line after)))).
Proof.
  intros H. apply parse_some_inv in H as (_ & Hn & En & _ & Ed). split.
  - destruct (@field_after_first NAME_ANCHOR reply ltac:(discriminate) Hn)
      as (before & after & H1 & H2 & H3).
    exists before, after. repeat split; try assumption. now rewrite En.
  - destruct (contains DESC_ANCHOR reply) eqn:Hd; [right | now left].
    destruct (@field_after_first DESC_ANCHOR reply ltac:(discriminate) Hd)
      as (before & after & H1 & H2 & H3).
    exists before, after. repeat split; try assumption.
    now rewrite Ed, or_empty_some, H3.
Qed.

Lemma fields_from_first_anchor_witness :
  exists r,
    parse_llm_response name_only_reply = Some r /\
    (exists before after,
       name_only_reply = before ++ NAME_ANCHOR ++ after /\
       contains NAME_ANCHOR before = false /\
       new_product r = strip (first_line after)) /\
    ((contains DESC_ANCHOR name_only_reply = false /\ product_description r = []) \/
     (exists before after,
        name_only_reply = before ++ DESC_ANCHOR ++ after /\
        contains DESC_ANCHOR before = false /\
        product_description r = cap_description (strip (first_line after)))).
Proof.
  eexists. split; [reflexivity|].
  apply (@fields_from_first_anchor name_only_reply). reflexivity.
Defined.
